(** * Icinga2 health-check probes: replica role and cache memory/latency

    A shallow embedding of the two probes of the repository,

    - [templates/icinga2/check_mongolu_monitor.py] (module [Mongo]) and
    - [templates/icinga2/templates/icinga2/check_redis_monitor.py]
      (module [Redis]),

    followed by the properties of their decision logic, message format and
    exit-status mapping.

    Modelling conventions.
    - A Python [int] is a [Z]; a Python [float] is an IEEE-754 binary64
      value, represented by [spec_float] with [prec = 53], [emax = 1024];
      a Python [str] is a [string] whose characters are the code points
      U+0000..U+00FF.
    - A function that can raise returns a [result]; a function that also
      talks to the outside world (the database, the cache server, the
      latency tool, standard output) lives in the monad [M], which threads
      a [World] and propagates exceptions.
    - The collaborators (pymongo, redis-py, the [keydb-cli] subprocess) are
      not part of the repository; a run is parameterised by what they
      answer, and every call to them is recorded in the world's trace.
    - [argparse] is not part of the repository either: [parse_args] is
      given by what it does with the command line, which is to return the
      parsed arguments, to print the help text and leave with status 0, or
      to reject the command line and leave with status 2. [main] is a run
      from the parsed arguments on, [main_argv] a run from the command line
      on. *)

From Stdlib Require Import ZArith String Ascii List Bool Lia SpecFloat DecimalString.
Import ListNotations.
Open Scope string_scope.
Open Scope Z_scope.

(* ===================================================================== *)
(** ** Python floats *)
(* ===================================================================== *)

Module PyFloat.

Definition float := spec_float.
Definition prec : Z := 53.
Definition emax : Z := 1024.

Definition nan : float := S754_nan.

(** [x * y], [x > y], [x <= y] on floats. *)
Definition mul (x y : float) : float := SFmul prec emax x y.
Definition gtb (x y : float) : bool := SFltb y x.
Definition leb (x y : float) : bool := SFleb x y.

(** [bool(x)]: only the two zeros are falsy; NaN is truthy. *)
Definition truthy (x : float) : bool :=
  match x with S754_zero _ => false | _ => true end.

(** [float(z)] for an int [z], rounding to nearest-even; [None] stands for
    OverflowError ("int too large to convert to float"). *)
Definition of_int (z : Z) : option float :=
  match binary_normalize prec emax z 0 false with
  | S754_infinity _ => None
  | f => Some f
  end.

(** Comparison of an int with a float: Python compares the two exactly,
    without converting the int; a comparison with NaN has no outcome. *)
Definition compare_int (z : Z) (f : float) : option comparison :=
  match f with
  | S754_nan => None
  | S754_infinity s => Some (if s then Gt else Lt)
  | S754_zero _ => Some (z ?= 0)
  | S754_finite s m e =>
      let v := cond_Zopp s (Zpos m) in
      Some (if 0 <=? e then z ?= v * 2 ^ e else z * 2 ^ (- e) ?= v)
  end.

(** [z > f] and [z <= f] for an int [z] and a float [f]. *)
Definition int_gtb (z : Z) (f : float) : bool :=
  match compare_int z f with Some Gt => true | _ => false end.
Definition int_leb (z : Z) (f : float) : bool :=
  match compare_int z f with Some (Lt | Eq) => true | _ => false end.

(** The float nearest to [d * 10^e] (ties to even), signed by [neg]. *)
Definition of_decimal (neg : bool) (d : Z) (e : Z) : float :=
  if d <=? 0 then S754_zero neg
  else if 0 <=? e then binary_round prec emax neg (Z.to_pos (d * 10 ^ e)) 0
  else SFdiv prec emax (S754_finite neg (Z.to_pos d) 0)
             (S754_finite false (Z.to_pos (10 ^ (- e))) 0).

(** *** [float(s)] for a str [s] *)

Definition code (c : ascii) : Z := Z.of_N (N_of_ascii c).
Definition is_digit (c : ascii) : bool := (48 <=? code c) && (code c <=? 57).
Definition digit_value (c : ascii) : Z := code c - 48.
Definition is_space (c : ascii) : bool :=
  ((9 <=? code c) && (code c <=? 13)) || (code c =? 32).
Definition lower (c : ascii) : ascii :=
  if (65 <=? code c) && (code c <=? 90)
  then ascii_of_N (Z.to_N (code c + 32)) else c.

(** Non-ASCII spaces (U+0085, U+00A0) count as a space; any other
    character from U+007F on ends the text with a [?]. *)
Fixpoint to_ascii_digits (cs : list ascii) : list ascii :=
  match cs with
  | [] => []
  | c :: cs' =>
      if code c <? 127 then c :: to_ascii_digits cs'
      else if (code c =? 133) || (code c =? 160)
           then " "%char :: to_ascii_digits cs'
           else ["?"%char]
  end.

Fixpoint lstrip (cs : list ascii) : list ascii :=
  match cs with
  | c :: cs' => if is_space c then lstrip cs' else cs
  | [] => []
  end.

Definition strip (cs : list ascii) : list ascii :=
  rev (lstrip (rev (lstrip cs))).

(** An underscore is accepted between two digits only. *)
Fixpoint drop_underscores (prev : ascii) (cs : list ascii) : option (list ascii) :=
  match cs with
  | [] => if Ascii.eqb prev "_" then None else Some []
  | c :: cs' =>
      if Ascii.eqb c "_" then
        if is_digit prev then drop_underscores c cs' else None
      else if Ascii.eqb prev "_" && negb (is_digit c) then None
      else option_map (cons c) (drop_underscores c cs')
  end.

Fixpoint span_digits (cs : list ascii) : list ascii * list ascii :=
  match cs with
  | c :: cs' =>
      if is_digit c then let '(ds, r) := span_digits cs' in (c :: ds, r)
      else ([], cs)
  | [] => ([], [])
  end.

Definition digits_value (ds : list ascii) : Z :=
  fold_left (fun acc c => 10 * acc + digit_value c) ds 0.

Definition take_sign (cs : list ascii) : bool * list ascii :=
  match cs with
  | "-"%char :: r => (true, r)
  | "+"%char :: r => (false, r)
  | _ => (false, cs)
  end.

Definition parse_exponent (cs : list ascii) : option Z :=
  match cs with
  | [] => Some 0
  | c :: r =>
      if Ascii.eqb (lower c) "e" then
        let '(neg, r1) := take_sign r in
        match span_digits r1 with
        | ((_ :: _) as ds, []) => Some (cond_Zopp neg (digits_value ds))
        | _ => None
        end
      else None
  end.

Definition parse_number (neg : bool) (cs : list ascii) : option float :=
  let '(ip, r) := span_digits cs in
  let '(fp, r') :=
    match r with
    | "."%char :: r1 => span_digits r1
    | _ => ([], r)
    end in
  match (ip ++ fp)%list with
  | [] => None
  | ds =>
      match parse_exponent r' with
      | Some ex => Some (of_decimal neg (digits_value ds) (ex - Z.of_nat (length fp)))
      | None => None
      end
  end.

Definition parse_signed (cs : list ascii) : option float :=
  let '(neg, r) := take_sign cs in
  let word := string_of_list_ascii (map lower r) in
  if String.eqb word "inf" || String.eqb word "infinity" then Some (S754_infinity neg)
  else if String.eqb word "nan" then Some S754_nan
  else parse_number neg r.

(** [None] stands for ValueError. *)
Definition of_string (s : string) : option float :=
  match strip (to_ascii_digits (list_ascii_of_string s)) with
  | [] => None
  | cs =>
      if existsb (Ascii.eqb "_") cs then
        match drop_underscores "000" cs with
        | Some cs' => parse_signed cs'
        | None => None
        end
      else parse_signed cs
  end.

(** A float literal of the source text. *)
Definition literal (s : string) : float :=
  match of_string s with Some f => f | None => S754_nan end.

(** *** Decimal output *)

Definition string_of_nat_Z (z : Z) : string :=
  NilZero.string_of_uint (N.to_uint (Z.to_N z)).

Definition round_half_even (n d : Z) : Z :=
  let q := n / d in
  match 2 * (n mod d) ?= d with
  | Lt => q
  | Gt => q + 1
  | Eq => if Z.even q then q else q + 1
  end.

Fixpoint zeros (n : nat) : string :=
  match n with O => EmptyString | S n' => String "0" (zeros n') end.

Definition pad_left (w : nat) (s : string) : string :=
  zeros (w - String.length s) ++ s.

Definition sign_string (s : bool) : string := if s then "-" else "".

(** [format(x, '.<p>f')]: the exact value of [x] rounded (ties to even) to
    [p] decimals. *)
Definition format_fixed (p : nat) (x : float) : string :=
  match x with
  | S754_nan => "nan"
  | S754_infinity s => sign_string s ++ "inf"
  | _ =>
      let n := match x with
               | S754_finite _ m e =>
                   if 0 <=? e then Zpos m * 2 ^ e * 10 ^ Z.of_nat p
                   else round_half_even (Zpos m * 10 ^ Z.of_nat p) (2 ^ (- e))
               | _ => 0
               end in
      let s := match x with S754_finite s _ _ | S754_zero s => s | _ => false end in
      let ip := string_of_nat_Z (n / 10 ^ Z.of_nat p) in
      let fp := pad_left p (string_of_nat_Z (n mod 10 ^ Z.of_nat p)) in
      sign_string s ++ ip ++ match p with O => "" | _ => "." ++ fp end
  end.

(** *** [repr(x)]: the shortest digit string that [float] maps back to [x] *)

Fixpoint first_from (fuel : nat) (p : Z -> bool) (k : Z) : Z :=
  match fuel with
  | O => k
  | S fuel' => if p k then k else first_from fuel' p (k + 1)
  end.

(** Position of the decimal point: the least [k] with [m * 2^e < 10^k],
    searched upwards from a lower estimate taken from the bit length. *)
Definition decimal_point (m : positive) (e : Z) : Z :=
  let lt10 k :=
    let n := Zpos m * 2 ^ Z.max e 0 * 10 ^ Z.max (- k) 0 in
    let d := 2 ^ Z.max (- e) 0 * 10 ^ Z.max k 0 in
    n <? d in
  first_from 8 lt10 ((Zpos (digits2_pos m) + e - 1) * 30103 / 100000 - 2).

(** The two [p]-digit neighbours of [m * 2^e] are [q] and [q + 1] (scaled by
    [10^(k - p)]); the comparison tells which one is nearer. *)
Definition candidates (m : positive) (e : Z) (k : Z) (p : Z) : Z * comparison :=
  let sc := p - k in
  let n := Zpos m * 2 ^ Z.max e 0 * 10 ^ Z.max sc 0 in
  let d := 2 ^ Z.max (- e) 0 * 10 ^ Z.max (- sc) 0 in
  (n / d, 2 * (n mod d) ?= d).

Definition shortest_at (m : positive) (e : Z) (k : Z) (p : Z) : option Z :=
  let '(q, half) := candidates m e k p in
  let x := S754_finite false m e in
  let back n := match SFcompare (of_decimal false n (k - p)) x with
                | Some Eq => true
                | _ => false
                end in
  match back q, back (q + 1) with
  | true, true =>
      Some match half with
           | Lt => q
           | Gt => q + 1
           | Eq => if Z.even q then q else q + 1
           end
  | true, false => Some q
  | false, true => Some (q + 1)
  | false, false => None
  end.

Fixpoint shortest_from (fuel : nat) (m : positive) (e : Z) (k : Z) (p : Z) : Z * Z :=
  match fuel with
  | O => (fst (candidates m e k p), p)
  | S fuel' =>
      match shortest_at m e k p with
      | Some q => (q, p)
      | None => shortest_from fuel' m e k (p + 1)
      end
  end.

Fixpoint strip_zeros (fuel : nat) (q : Z) : Z :=
  match fuel with
  | O => q
  | S fuel' =>
      if (q mod 10 =? 0) && negb (q =? 0) then strip_zeros fuel' (q / 10) else q
  end.

(** Shortest digits [d1 d2 ...] and the position of the decimal point:
    the value is [0.d1d2... * 10^decpt]. *)
Definition shortest_digits (m : positive) (e : Z) : string * Z :=
  let k := decimal_point m e in
  let '(q, p) := shortest_from 17 m e k 1 in
  let all := string_of_nat_Z q in
  let decpt := k + (Z.of_nat (String.length all) - p) in
  (string_of_nat_Z (strip_zeros 20 q), decpt).

(** Layout of [repr]: exponent form from 1e16 on and below 1e-4. *)
Definition repr_digits (ds : string) (decpt : Z) : string :=
  let n := Z.of_nat (String.length ds) in
  if (decpt <=? -4) || (16 <? decpt) then
    let ex := decpt - 1 in
    let mant := match ds with
                | String c EmptyString => ds
                | String c r => String c ("." ++ r)
                | EmptyString => ds
                end in
    mant ++ "e" ++ (if ex <? 0 then "-" else "+")
         ++ pad_left 2 (string_of_nat_Z (Z.abs ex))
  else if decpt <=? 0 then
    "0." ++ zeros (Z.to_nat (- decpt)) ++ ds
  else if n <=? decpt then
    ds ++ zeros (Z.to_nat (decpt - n)) ++ ".0"
  else
    substring 0 (Z.to_nat decpt) ds ++ "." ++
    substring (Z.to_nat decpt) (Z.to_nat (n - decpt)) ds.

(** [repr(x)], which is also [str(x)] and what an f-string field without a
    format specification shows. *)
Definition repr (x : float) : string :=
  match x with
  | S754_nan => "nan"
  | S754_infinity s => sign_string s ++ "inf"
  | S754_zero s => sign_string s ++ "0.0"
  | S754_finite s m e =>
      let '(ds, decpt) := shortest_digits m e in
      sign_string s ++ repr_digits ds decpt
  end.

End PyFloat.

(* ===================================================================== *)
(** ** Python runtime: strings, exceptions, effects *)
(* ===================================================================== *)

Module Py.

(** *** Strings *)

Definition newline : string := String "010" EmptyString.

(** [s[start:stop]] *)
Definition slice (s : string) (start stop : Z) : string :=
  let n := Z.of_nat (String.length s) in
  let norm i := if i <? 0 then Z.max (i + n) 0 else Z.min i n in
  let a := norm start in
  let b := norm stop in
  substring (Z.to_nat a) (Z.to_nat (b - a)) s.

(** [s.split(sep)] for a one-character separator: every occurrence of the
    separator ends a field, so consecutive separators give empty fields. *)
Fixpoint split_on (sep : ascii) (s : string) : list string :=
  match s with
  | EmptyString => [EmptyString]
  | String c r =>
      if Ascii.eqb c sep then EmptyString :: split_on sep r
      else match split_on sep r with
           | t :: ts => String c t :: ts
           | [] => [String c EmptyString]
           end
  end.

(** [str.isspace] on one character. *)
Definition is_whitespace (c : ascii) : bool :=
  let n := PyFloat.code c in
  ((9 <=? n) && (n <=? 13)) || ((28 <=? n) && (n <=? 32))
  || (n =? 133) || (n =? 160).

(** [s.split()]: the maximal runs of non-whitespace characters. *)
Fixpoint split_whitespace_aux (cur : string) (s : string) : list string :=
  let flush := match cur with EmptyString => [] | _ => [cur] end in
  match s with
  | EmptyString => flush
  | String c r =>
      if is_whitespace c then (flush ++ split_whitespace_aux EmptyString r)%list
      else split_whitespace_aux (cur ++ String c EmptyString) r
  end.

Definition split_whitespace (s : string) : list string :=
  split_whitespace_aux EmptyString s.

Definition hex_digit (n : Z) : ascii :=
  match String.get (Z.to_nat n) "0123456789abcdef" with
  | Some c => c
  | None => "0"%char
  end.

(** [str.isprintable] on one character. *)
Definition is_printable (c : ascii) : bool :=
  let n := PyFloat.code c in
  ((32 <=? n) && (n <? 127)) || ((161 <=? n) && negb (n =? 173)).

Definition backslash : ascii := "092"%char.

Definition escape_char (quote c : ascii) : string :=
  let n := PyFloat.code c in
  if Ascii.eqb c quote || Ascii.eqb c backslash then String backslash (String c "")
  else if n =? 9 then String backslash "t"
  else if n =? 10 then String backslash "n"
  else if n =? 13 then String backslash "r"
  else if is_printable c then String c ""
  else String backslash
         (String "x" (String (hex_digit (n / 16)) (String (hex_digit (n mod 16)) ""))).

Definition contains_char (c : ascii) (s : string) : bool :=
  existsb (Ascii.eqb c) (list_ascii_of_string s).

Definition double_quote : ascii := "034"%char.

(** [repr(s)] for a str [s]: the quotes are single ones unless the str has a
    single quote and no double quote; the quote character and the backslash
    are escaped, tab, newline and carriage return are written with their
    letter, and every other non-printable character as a two-digit
    hexadecimal escape. *)
Definition repr_str (s : string) : string :=
  let quote : ascii :=
    if contains_char "'" s && negb (contains_char double_quote s)
    then double_quote else "'"%char in
  String quote
    (String.concat "" (map (escape_char quote) (list_ascii_of_string s))
     ++ String quote "").

(** *** Exceptions *)

(** The classes below [Exception] that the probes and their collaborators
    raise, with the library hierarchy of pymongo and redis-py. *)
Inductive error_class :=
| Exception
| ValueError
| LookupError
| IndexError
| ArithmeticError
| OverflowError
| OSError
| PyMongoError
| ConnectionFailure
| AutoReconnect
| ServerSelectionTimeoutError
| OperationFailure
| ReplicaUnhealthy
| RedisError
| RedisConnectionError
| RedisTimeoutError
| AuthenticationError
| ResponseError.

Definition base (c : error_class) : option error_class :=
  match c with
  | Exception => None
  | ValueError | LookupError | ArithmeticError | OSError
  | PyMongoError | ReplicaUnhealthy | RedisError => Some Exception
  | IndexError => Some LookupError
  | OverflowError => Some ArithmeticError
  | ConnectionFailure | OperationFailure => Some PyMongoError
  | AutoReconnect => Some ConnectionFailure
  | ServerSelectionTimeoutError => Some AutoReconnect
  | RedisConnectionError | RedisTimeoutError | ResponseError => Some RedisError
  | AuthenticationError => Some RedisConnectionError
  end.

Definition class_eqb (c d : error_class) : bool :=
  match c, d with
  | Exception, Exception | ValueError, ValueError | LookupError, LookupError
  | IndexError, IndexError | ArithmeticError, ArithmeticError
  | OverflowError, OverflowError | OSError, OSError
  | PyMongoError, PyMongoError | ConnectionFailure, ConnectionFailure
  | AutoReconnect, AutoReconnect
  | ServerSelectionTimeoutError, ServerSelectionTimeoutError
  | OperationFailure, OperationFailure | ReplicaUnhealthy, ReplicaUnhealthy
  | RedisError, RedisError | RedisConnectionError, RedisConnectionError
  | RedisTimeoutError, RedisTimeoutError
  | AuthenticationError, AuthenticationError
  | ResponseError, ResponseError => true
  | _, _ => false
  end.

Fixpoint issubclass_fuel (fuel : nat) (c d : error_class) : bool :=
  class_eqb c d ||
  match fuel, base c with
  | S fuel', Some b => issubclass_fuel fuel' b d
  | _, _ => false
  end.

Definition issubclass (c d : error_class) : bool := issubclass_fuel 6 c d.

(** A raised exception: an error with its [args], or the [SystemExit] that
    [sys.exit] raises, which is no [Exception]. *)
Inductive exn :=
| Error (c : error_class) (args : list string)
| SystemExit (code : Z).

Inductive result (A : Type) :=
| Val (a : A)
| Raise (e : exn).
Arguments Val {A} a.
Arguments Raise {A} e.

(** What a collaborator answers to one call: a value, or an error. *)
Inductive reply (A : Type) :=
| Replied (a : A)
| Failed (c : error_class) (args : list string).
Arguments Replied {A} a.
Arguments Failed {A} c args.

Definition of_reply {A} (r : reply A) : result A :=
  match r with
  | Replied a => Val a
  | Failed c args => Raise (Error c args)
  end.

(** *** The world of a run *)

Inductive call :=
| MongoCommand (user password command : string)
| RedisInfo
| Popen (argv : list string).

Record World := mkWorld {
  stdout : string;
  trace : list call
}.

Definition initial_world : World := mkWorld "" [].

Definition M (A : Type) : Type := World -> result A * World.

Class Monad (m : Type -> Type) := {
  ret : forall {A}, A -> m A;
  bind : forall {A B}, m A -> (A -> m B) -> m B
}.

#[export] Instance Monad_result : Monad result := {
  ret := fun A a => Val a;
  bind := fun A B c k =>
    match c with
    | Val a => k a
    | Raise e => Raise e
    end
}.

#[export] Instance Monad_M : Monad M := {
  ret := fun A a w => (Val a, w);
  bind := fun A B c k w =>
    match c w with
    | (Val a, w') => k a w'
    | (Raise e, w') => (Raise e, w')
    end
}.

Definition lift {A} (r : result A) : M A := fun w => (r, w).

Definition raise {A} (e : exn) : M A := fun w => (Raise e, w).

(** One call to a collaborator: it is recorded, then answered. *)
Definition ask {A} (c : call) (r : reply A) : M A :=
  fun w => (of_reply r, mkWorld (stdout w) (trace w ++ [c])%list).

(** [print] with the arguments unpacked from a tuple: they are shown
    separated by one space and followed by a newline. *)
Definition print (args : list string) : M unit :=
  fun w => (Val tt, mkWorld (stdout w ++ String.concat " " args ++ newline) (trace w)).

(** [sys.exit(code)] *)
Definition sys_exit {A} (code : Z) : M A := raise (SystemExit code).

(** [sys.stdout.write(text)] *)
Definition write (text : string) : M unit :=
  fun w => (Val tt, mkWorld (stdout w ++ text) (trace w)).

(** What argparse makes of a command line: the parsed arguments; a request
    for help ([-h], [--help]), with the help text of the parser; or a command
    line that the parser rejects (a required option is missing, a value is
    not of the declared type, an option is unknown). *)
Inductive command_line (A : Type) :=
| Parsed (args : A)
| HelpRequested (help : string)
| Rejected.
Arguments Parsed {A} args.
Arguments HelpRequested {A} help.
Arguments Rejected {A}.

(** [parser.parse_args()]: the help action prints the help text on standard
    output and leaves with status 0; an error prints the usage and its message
    on standard error and leaves with status 2. *)
Definition parse_args {A} (argv : command_line A) : M A :=
  match argv with
  | Parsed args => ret args
  | HelpRequested help => bind (write help) (fun _ => sys_exit 0)
  | Rejected => sys_exit 2
  end.

(** [try: body  except c1 as ex: h1(ex.args)  except c2 as ex: ...]: the
    first clause whose class the error is an instance of handles it. *)
Definition try_except {A} (body : M A)
    (handlers : list (error_class * (list string -> M A))) : M A :=
  fun w =>
    match body w with
    | (Raise (Error c args), w') =>
        match find (fun h => issubclass c (fst h)) handlers with
        | Some h => snd h args w'
        | None => (Raise (Error c args), w')
        end
    | r => r
    end.

(** *** A process *)

Record Outcome := mkOutcome {
  printed : string;
  exit_code : Z;
  uncaught : option exn;
  calls : list call
}.

(** The interpreter ends with status 0 when [main] returns, with the code
    of a [SystemExit], and with status 1 and a traceback (on standard
    error) when another exception is not caught. *)
Definition run_process (main : M unit) : Outcome :=
  let '(r, w) := main initial_world in
  match r with
  | Val _ => mkOutcome (stdout w) 0 None (trace w)
  | Raise (SystemExit code) => mkOutcome (stdout w) code None (trace w)
  | Raise (Error c args) => mkOutcome (stdout w) 1 (Some (Error c args)) (trace w)
  end.

End Py.

Import Py.

Declare Scope py_scope.
Notation "x <- c ;; k" := (bind c (fun x => k))
  (at level 61, c at next level, right associativity) : py_scope.
Notation "' p <- c ;; k" := (bind c (fun x => let 'p := x in k))
  (at level 61, p pattern, c at next level, right associativity) : py_scope.
Notation "c ;; k" := (bind c (fun _ => k))
  (at level 61, right associativity) : py_scope.
Open Scope py_scope.

(* ===================================================================== *)
(** ** check_mongolu_monitor.py *)
(* ===================================================================== *)

Module Mongo.

Inductive status_key := OK | CRITICAL.

Definition STATUS (k : status_key) : Z :=
  match k with
  | OK => 0
  | CRITICAL => 2
  end.

Definition PRIMARY_INSTANCE : Z := 1.
Definition SECONDARY_INSTANCE : Z := 2.

(** The replica set member the probe talks to: what it answers to
    [replSetGetStatus], reduced to the [myState] field of the reply, for
    the credentials it is given. *)
Record Server := mkServer {
  replSetGetStatus : string -> string -> reply Z
}.

Record Connection := mkConnection {
  client_server : Server;
  client_username : string;
  client_password : string
}.

(** [MongoClient(username=..., password=...)] connects lazily. *)
Definition MongoClient (srv : Server) (user pass : string) : M Connection :=
  ret (mkConnection srv user pass).

Definition get_instance_status (connection : Connection) : M Z :=
  ask (MongoCommand (client_username connection) (client_password connection)
                    "replSetGetStatus")
      (replSetGetStatus (client_server connection) (client_username connection)
                        (client_password connection)).

Definition report_instance_status (srv : Server) (user pass : string) : M string :=
  connection <- MongoClient srv user pass ;;
  let message := "|replica_health=1;;0;;" in
  instance_status <- get_instance_status connection ;;
  if instance_status =? PRIMARY_INSTANCE then
    let message := "Ok - Replica Primary" ++ message in
    ret message
  else if instance_status =? SECONDARY_INSTANCE then
    let message := "Ok - Replica Secondary" ++ message in
    ret message
  else
    let message := "Critical - Replica NOK!" ++ message in
    raise (Error ReplicaUnhealthy [message]).

(** The parsed command line: [-u/--user] and [-p/--password]. *)
Record Args := mkArgs {
  user : string;
  password : string
}.

(** [main], once [parser.parse_args()] has returned [args]. *)
Definition main (srv : Server) (args : Args) : M unit :=
  try_except
    (message <- report_instance_status srv (user args) (password args) ;;
     print [message] ;;
     sys_exit (STATUS OK))
    [ (ServerSelectionTimeoutError, fun ex_args =>
         print ex_args ;; sys_exit (STATUS CRITICAL));
      (OperationFailure, fun ex_args =>
         print ex_args ;; sys_exit (STATUS CRITICAL));
      (ReplicaUnhealthy, fun ex_args =>
         print ex_args ;; sys_exit (STATUS CRITICAL)) ].

(** [main] from its first statement on: the command line is parsed inside
    the [try]. *)
Definition main_argv (srv : Server) (argv : command_line Args) : M unit :=
  try_except
    (args <- parse_args argv ;;
     message <- report_instance_status srv (user args) (password args) ;;
     print [message] ;;
     sys_exit (STATUS OK))
    [ (ServerSelectionTimeoutError, fun ex_args =>
         print ex_args ;; sys_exit (STATUS CRITICAL));
      (OperationFailure, fun ex_args =>
         print ex_args ;; sys_exit (STATUS CRITICAL));
      (ReplicaUnhealthy, fun ex_args =>
         print ex_args ;; sys_exit (STATUS CRITICAL)) ].

End Mongo.

(* ===================================================================== *)
(** ** check_redis_monitor.py *)
(* ===================================================================== *)

Module Redis.

Import PyFloat.

Inductive status_key := OK | CRITICAL.

Definition STATUS (k : status_key) : Z :=
  match k with
  | OK => 0
  | CRITICAL => 2
  end.

Inductive args_key := MAX_PERCENTUAL_MEMORY_USAGE | MAX_LATENCY_MS.

Definition ARGS (k : args_key) : float :=
  match k with
  | MAX_PERCENTUAL_MEMORY_USAGE => literal "0.95"
  | MAX_LATENCY_MS => literal "20.0"
  end.

(** The entries of the [INFO] reply that the probe reads, with the types
    redis-py gives them: the byte counts are ints, the human-readable
    values ("6.02M", "3.59G") are strs. *)
Record Info := mkInfo {
  used_memory : Z;
  used_memory_human : string;
  maxmemory : Z;
  maxmemory_human : string
}.

(** What the cache server answers to [INFO], and what [keydb-cli --latency]
    writes to its standard output (already decoded). *)
Record Env := mkEnv {
  info_reply : reply Info;
  keydb_cli_output : reply string
}.

Definition run_keydb_latency_check (env : Env) : M (list string) :=
  let keydb_latency_command := "keydb-cli --latency" in
  output <- ask (Popen (split_whitespace keydb_latency_command)) (keydb_cli_output env) ;;
  ret (split_on " " output).

Definition format_message
    (memory_healthy : bool)
    (max_memory_allowed_human : string)
    (latency_healthy : bool)
    (max_latency : float)
    (client_information : Info)
    (latency : float) : string :=
  let used_memory_human := used_memory_human client_information ++ "B" in
  let maxmemory_human := maxmemory_human client_information ++ "B" in
  let base_massage :=
    (if negb memory_healthy then "high" else "") ++ " memory usage: "
    ++ used_memory_human ++ " used of " ++ maxmemory_human ++ " "
    ++ "/ " ++ (if negb latency_healthy then "high" else "")
    ++ " average latency: " ++ repr latency ++ " ms" in
  base_massage ++ "|used_memory=" ++ used_memory_human ++ ";;"
    ++ max_memory_allowed_human ++ ";; average_latency=" ++ repr latency
    ++ ";;" ++ repr max_latency ++ ";;".

(** [float(s)] as an operation that can raise. *)
Definition float_of_str (s : string) : result float :=
  match of_string s with
  | Some f => Val f
  | None => Raise (Error ValueError ["could not convert string to float: " ++ repr_str s])
  end.

(** [x * n] for a float [x] and an int [n]: the int is converted first. *)
Definition float_mul_int (x : float) (n : Z) : result float :=
  match of_int n with
  | Some y => Val (mul x y)
  | None => Raise (Error OverflowError ["int too large to convert to float"])
  end.

Definition get_memory_threshold_by_percentage
    (max_memory_usage : float) (client_information : Info) : result float :=
  max_memory_allowed <- float_mul_int max_memory_usage (maxmemory client_information) ;;
  ret max_memory_allowed.

Definition get_human_memory_threshold_by_percentage
    (max_memory_usage : float) (client_information : Info) : result string :=
  let maxmemory_memory_human := maxmemory_human client_information in
  let size_maxmemory_memory_human := Z.of_nat (String.length maxmemory_memory_human) in
  maxmemory_memory_human_value <-
    float_of_str (slice maxmemory_memory_human 0 (size_maxmemory_memory_human - 1)) ;;
  let max_memory_to_alarm := mul maxmemory_memory_human_value max_memory_usage in
  let max_memory_unit_byte :=
    slice maxmemory_memory_human (-1) size_maxmemory_memory_human in
  let max_memory_allowed_human :=
    format_fixed 2 max_memory_to_alarm ++ max_memory_unit_byte ++ "B" in
  ret max_memory_allowed_human.

Definition check_memory_usage
    (client_information : Info) (max_memory_usage : float) : result (bool * string) :=
  let memory_healthy := true in
  max_memory_allowed <-
    get_memory_threshold_by_percentage max_memory_usage client_information ;;
  max_memory_allowed_human <-
    get_human_memory_threshold_by_percentage max_memory_usage client_information ;;
  let memory_healthy :=
    if int_gtb (used_memory client_information) max_memory_allowed
    then false else memory_healthy in
  ret (memory_healthy, max_memory_allowed_human).

(** [results[i]] *)
Definition index (results : list string) (i : nat) : result string :=
  match nth_error results i with
  | Some x => Val x
  | None => Raise (Error IndexError ["list index out of range"])
  end.

Definition check_latency (env : Env) (max_latency : float) : M (bool * float) :=
  results <- run_keydb_latency_check env ;;
  average_latency <- lift (token <- index results 2 ;; float_of_str token) ;;
  if gtb average_latency max_latency then ret (false, average_latency)
  else ret (true, average_latency).

(** [if not value: value = default], the threshold resolution that
    [report_stats] applies to each of its two arguments. *)
Definition resolve (value : option float) (default : float) : float :=
  match value with
  | None => default
  | Some x => if negb (truthy x) then default else x
  end.

Definition report_stats (env : Env) (max_latency max_memory_usage : option float)
    : M string :=
  (* con = redis.Redis(); con.client().info(): one exchange with the server *)
  client_information <- ask RedisInfo (info_reply env) ;;
  let max_memory_usage := resolve max_memory_usage (ARGS MAX_PERCENTUAL_MEMORY_USAGE) in
  let max_latency := resolve max_latency (ARGS MAX_LATENCY_MS) in
  '(memory_healthy, max_memory_allowed_human) <-
    lift (check_memory_usage client_information max_memory_usage) ;;
  '(latency_healthy, latency) <- check_latency env max_latency ;;
  let message :=
    format_message memory_healthy max_memory_allowed_human latency_healthy
                   max_latency client_information latency in
  if negb memory_healthy || negb latency_healthy then
    raise (Error RedisError [message])
  else ret message.

(** The parsed command line: [-m/--max-memory-usage] and [-l/--max-latency],
    each [None] when the flag is not given. *)
Record Args := mkArgs {
  max_memory_usage : option float;
  max_latency : option float
}.

(** [main], once [parser.parse_args()] has returned [args]. *)
Definition main (env : Env) (args : Args) : M unit :=
  try_except
    (message <- report_stats env (max_latency args) (max_memory_usage args) ;;
     print [message] ;;
     sys_exit (STATUS OK))
    [ (RedisError, fun ex_args =>
         print ex_args ;; sys_exit (STATUS CRITICAL)) ].

(** [main] from its first statement on: the command line is parsed inside
    the [try]. *)
Definition main_argv (env : Env) (argv : command_line Args) : M unit :=
  try_except
    (args <- parse_args argv ;;
     message <- report_stats env (max_latency args) (max_memory_usage args) ;;
     print [message] ;;
     sys_exit (STATUS OK))
    [ (RedisError, fun ex_args =>
         print ex_args ;; sys_exit (STATUS CRITICAL)) ].

End Redis.

(* ===================================================================== *)
(** ** Auxiliary notions used by the statements *)
(* ===================================================================== *)

(** The three lines the replica probe can print about a reported state. *)
Definition primary_message : string := "Ok - Replica Primary|replica_health=1;;0;;".
Definition secondary_message : string := "Ok - Replica Secondary|replica_health=1;;0;;".
Definition nok_message : string := "Critical - Replica NOK!|replica_health=1;;0;;".

(** The verdict of [Mongo.report_instance_status] on a reported state. *)
Definition replica_verdict (z : Z) : result string :=
  if z =? Mongo.PRIMARY_INSTANCE then Val primary_message
  else if z =? Mongo.SECONDARY_INSTANCE then Val secondary_message
  else Raise (Error ReplicaUnhealthy [nok_message]).

(** The errors that the three [except] clauses of [Mongo.main] catch. *)
Definition caught_by_replica_main (c : error_class) : bool :=
  issubclass c ServerSelectionTimeoutError
  || issubclass c OperationFailure
  || issubclass c ReplicaUnhealthy.

(** The world after one more call to a collaborator. *)
Definition after_call (c : call) (w : World) : World :=
  mkWorld (stdout w) (trace w ++ [c])%list.

Definition replica_query (user pass : string) : call :=
  MongoCommand user pass "replSetGetStatus".

Definition latency_run : call := Popen ["keydb-cli"; "--latency"].

(** The outcome of a run that caught an error carrying [args]. *)
Definition critical_outcome (args : list string) (cs : list call) : Outcome :=
  mkOutcome (String.concat " " args ++ newline) 2 None cs.

(** The outcome of a run that ends in a traceback. *)
Definition traceback_outcome (c : error_class) (args : list string) (cs : list call)
  : Outcome :=
  mkOutcome "" 1 (Some (Error c args)) cs.

(** The two thresholds of a run of the cache probe, as [Redis.report_stats]
    rebinds its arguments. *)
Definition memory_fraction (a : Redis.Args) : PyFloat.float :=
  Redis.resolve (Redis.max_memory_usage a) (Redis.ARGS Redis.MAX_PERCENTUAL_MEMORY_USAGE).

Definition latency_limit (a : Redis.Args) : PyFloat.float :=
  Redis.resolve (Redis.max_latency a) (Redis.ARGS Redis.MAX_LATENCY_MS).

(** The latency that [Redis.check_latency] reads off the tool's output. *)
Definition measured_latency (output : string) : result PyFloat.float :=
  token <- Redis.index (split_on " " output) 2 ;; Redis.float_of_str token.

(** The marker that [Redis.format_message] puts before a sub-check. *)
Definition high_marker (healthy : bool) : string :=
  if healthy then "" else "high".

(** The last character of a str, as a str ([s[-1:]]). *)
Definition unit_suffix (s : string) : string :=
  slice s (-1) (Z.of_nat (String.length s)).

(** A str without its last character ([s[:-1]]). *)
Definition numeric_prefix (s : string) : string :=
  slice s 0 (Z.of_nat (String.length s) - 1).

(** What a run of the cache probe ends with, given what [report_stats] did. *)
Definition cache_outcome (r : result string * World) : Outcome :=
  match r with
  | (Val message, w) => mkOutcome (stdout w ++ message ++ newline) 0 None (trace w)
  | (Raise (Error c args), w) =>
      if issubclass c RedisError
      then mkOutcome (stdout w ++ String.concat " " args ++ newline) 2 None (trace w)
      else mkOutcome (stdout w) 1 (Some (Error c args)) (trace w)
  | (Raise (SystemExit code), w) => mkOutcome (stdout w) code None (trace w)
  end.

(** A float that is a number: neither an infinity nor NaN. *)
Definition is_number (x : PyFloat.float) : bool :=
  match x with
  | S754_zero _ | S754_finite _ _ _ => true
  | S754_infinity _ | S754_nan => false
  end.

(** Sample inputs: the scenarios of the probes' documentation. *)
Definition secondary_server : Mongo.Server := Mongo.mkServer (fun _ _ => Replied 2).
Definition primary_server : Mongo.Server := Mongo.mkServer (fun _ _ => Replied 1).
Definition startup_server : Mongo.Server := Mongo.mkServer (fun _ _ => Replied 0).
Definition unreachable_server : Mongo.Server :=
  Mongo.mkServer (fun _ _ => Failed ServerSelectionTimeoutError ["localhost:27017: timed out"]).
Definition root_args : Mongo.Args := Mongo.mkArgs "root" "secret".

Definition sample_info : Redis.Info := Redis.mkInfo 6312427 "6.02M" 3854733148 "3.59G".
Definition unbounded_info : Redis.Info := Redis.mkInfo 1 "1B" 0 "0B".
Definition bare_info : Redis.Info := Redis.mkInfo 1 "1B" 0 "0".
Definition quiet_env : Redis.Env :=
  Redis.mkEnv (Replied sample_info) (Replied ("0 1 0.07 1234" ++ newline)).
Definition slow_env : Redis.Env :=
  Redis.mkEnv (Replied sample_info) (Replied ("0 1 25.0 1234" ++ newline)).
Definition double_space_env : Redis.Env :=
  Redis.mkEnv (Replied sample_info) (Replied "0  1 0.07 5").
Definition bare_env : Redis.Env :=
  Redis.mkEnv (Replied bare_info) (Replied ("0 1 0.07 1234" ++ newline)).
Definition short_env : Redis.Env :=
  Redis.mkEnv (Replied sample_info) (Replied "0 1").
Definition down_env : Redis.Env :=
  Redis.mkEnv (Failed RedisConnectionError ["Error 111 connecting to localhost:6379."])
              (Replied "0 1 0.07 3").
Definition default_args : Redis.Args := Redis.mkArgs None None.


(** The number of occurrences of a character in a str ([s.count(c)]). *)
Fixpoint count_char (c : ascii) (s : string) : nat :=
  match s with
  | EmptyString => O
  | String x r => if Ascii.eqb x c then S (count_char c r) else count_char c r
  end.

(** The text before the performance data in each line of the replica probe. *)
Definition replica_head (z : Z) : string :=
  if z =? 1 then "Ok - Replica Primary"
  else if z =? 2 then "Ok - Replica Secondary"
  else "Critical - Replica NOK!".

(** More sample inputs. *)
Definition reconnect_server : Mongo.Server :=
  Mongo.mkServer (fun _ _ => Failed AutoReconnect ["connection closed"]).
Definition nan_args : Redis.Args :=
  Redis.mkArgs (Some PyFloat.nan) (Some PyFloat.nan).
Definition exact_info : Redis.Info := Redis.mkInfo 95 "95B" 100 "100B".
Definition busy_info : Redis.Info := Redis.mkInfo 96 "96B" 100 "100B".
Definition empty_limit_info : Redis.Info := Redis.mkInfo 1 "1B" 0 "".
Definition empty_limit_env : Redis.Env :=
  Redis.mkEnv (Replied empty_limit_info) (Replied "0 1 0.07 3").
Definition tool_missing_env : Redis.Env :=
  Redis.mkEnv (Replied sample_info)
              (Failed OSError ["[Errno 2] No such file or directory: keydb-cli"]).
Definition moderate_env : Redis.Env :=
  Redis.mkEnv (Replied sample_info) (Replied ("0 1 10.0 1234" ++ newline)).
Definition gap_env : Redis.Env :=
  Redis.mkEnv (Replied sample_info) (Replied "0  1").
Definition strict_latency_args : Redis.Args :=
  Redis.mkArgs None (Some (PyFloat.literal "5.0")).
Definition strict_memory_args : Redis.Args :=
  Redis.mkArgs (Some (PyFloat.literal "0.001")) None.
Definition zero_args : Redis.Args :=
  Redis.mkArgs (Some (PyFloat.literal "0")) (Some (PyFloat.literal "0")).

(** What [Redis.report_stats] does after it has settled its two thresholds:
    the memory check runs with [fraction], the latency check with [limit],
    and the message shows [limit]. *)
Definition checked_report (env : Redis.Env) (info : Redis.Info)
    (fraction limit : PyFloat.float) (w : World) : result string * World :=
  match Redis.check_memory_usage info fraction with
  | Raise e => (Raise e, w)
  | Val (memory_healthy, allowed) =>
      match Redis.check_latency env limit w with
      | (Raise e, w') => (Raise e, w')
      | (Val (latency_healthy, latency), w') =>
          let message :=
            Redis.format_message memory_healthy allowed latency_healthy limit
                                 info latency in
          (if memory_healthy && latency_healthy then Val message
           else Raise (Error RedisError [message]), w')
      end
  end.

(** The report on a used-memory count, a limit [fmax] in bytes, a limit [v]
    in the unit of its human-readable form and a measured [latency], when
    the thresholds compared with them are [fraction] and [limit]. *)
Definition report_at (info : Redis.Info) (fmax v latency fraction limit : PyFloat.float)
  : result string :=
  let memory_healthy :=
    negb (PyFloat.int_gtb (Redis.used_memory info) (PyFloat.mul fraction fmax)) in
  let latency_healthy := negb (PyFloat.gtb latency limit) in
  let allowed :=
    PyFloat.format_fixed 2 (PyFloat.mul v fraction)
    ++ unit_suffix (Redis.maxmemory_human info) ++ "B" in
  let message :=
    Redis.format_message memory_healthy allowed latency_healthy limit info latency in
  if memory_healthy && latency_healthy then Val message
  else Raise (Error RedisError [message]).

(* ===================================================================== *)
(** ** The float model on known values *)
(* ===================================================================== *)

Example float_of_tenth :
  PyFloat.of_string "0.1" = Some (S754_finite false 7205759403792794 (-56)).
Proof. reflexivity. Qed.

Example float_accepts :
  map PyFloat.of_string [" 1_0.5e-1 "; "1."; ".5"; "-inf"; "NaN"; "0"]
  = [ Some (S754_finite false 4728779608739021 (-52));
      Some (S754_finite false 4503599627370496 (-52));
      Some (S754_finite false 4503599627370496 (-53));
      Some (S754_infinity true); Some S754_nan; Some (S754_zero false) ].
Proof. reflexivity. Qed.

Example float_rejects :
  map PyFloat.of_string [""; " "; "."; "1e"; "1__0"; "_1"; "0x10"; "3.59G"; "1 2"]
  = [None; None; None; None; None; None; None; None; None].
Proof. reflexivity. Qed.

Example repr_samples :
  map (fun s => PyFloat.repr (PyFloat.literal s))
      ["0.07"; "20.0"; "25"; "0.95"; "1e16"; "1e15"; "0.0001"; "0.00001";
       "0.30000000000000004"; "-1.5"; "1e23"; "9007199254740993"; "-0.0"; "nan"]
  = ["0.07"; "20.0"; "25.0"; "0.95"; "1e+16"; "1000000000000000.0"; "0.0001"; "1e-05";
     "0.30000000000000004"; "-1.5"; "1e+23"; "9007199254740992.0"; "-0.0"; "nan"].
Proof. vm_compute. reflexivity. Qed.

Example format_fixed_samples :
  map (fun s => PyFloat.format_fixed 2 (PyFloat.literal s))
      ["3.4105"; "2.675"; "0.125"; "0.375"; "-0.001"; "1e22"; "99.995"; "inf"]
  = ["3.41"; "2.67"; "0.12"; "0.38"; "-0.00"; "10000000000000000000000.00";
     "100.00"; "inf"].
Proof. vm_compute. reflexivity. Qed.

Example repr_str_samples :
  map repr_str [""; "3.59"; "0 1"; "it's"; String double_quote "a'"; "a" ++ newline;
                String backslash "G"]
  = ["''"; "'3.59'"; "'0 1'"; String double_quote ("it's" ++ String double_quote "");
     String "'" (String double_quote (String "a" (String backslash "''")));
     String "'" (String "a" (String backslash "n'"));
     String "'" (String backslash (String backslash "G'"))].
Proof. reflexivity. Qed.

Example int_to_float_rounds :
  PyFloat.of_int 9007199254740993 = Some (S754_finite false 4503599627370496 1) /\
  PyFloat.of_int (2 ^ 1024) = None.
Proof. split; vm_compute; reflexivity. Qed.

(* ===================================================================== *)
(** ** Strings, slices and fields *)
(* ===================================================================== *)

Lemma append_assoc (a b c : string) : (a ++ b) ++ c = a ++ (b ++ c).
Proof. induction a as [ | x a IH ]; cbn; [ reflexivity | now rewrite IH ]. Qed.

Lemma length_append (a b : string) :
  String.length (a ++ b) = (String.length a + String.length b)%nat.
Proof. induction a as [ | x a IH ]; cbn; [ reflexivity | now rewrite IH ]. Qed.

Lemma substring_prefix (a b : string) : substring 0 (String.length a) (a ++ b) = a.
Proof. induction a as [ | x a IH ]; cbn; [ now destruct b | now rewrite IH ]. Qed.

Lemma substring_skip (a b : string) (n : nat) :
  substring (String.length a) n (a ++ b) = substring 0 n b.
Proof. induction a as [ | x a IH ]; cbn; [ reflexivity | exact IH ]. Qed.

Lemma numeric_prefix_snoc (p : string) (u : ascii) :
  numeric_prefix (p ++ String u "") = p.
Proof.
  unfold numeric_prefix, slice. rewrite length_append. cbn [String.length].
  set (n := String.length p).
  replace (0 <? 0) with false by reflexivity.
  replace (Z.of_nat (n + 1) - 1) with (Z.of_nat n) by lia.
  destruct (Z.ltb_spec (Z.of_nat n) 0) as [Hneg | _]; [ lia | ].
  rewrite Z.min_l by lia. rewrite Z.min_l by lia.
  rewrite Z.sub_0_r, Nat2Z.id. cbn [Z.to_nat]. apply substring_prefix.
Qed.

Lemma unit_suffix_snoc (p : string) (u : ascii) :
  unit_suffix (p ++ String u "") = String u "".
Proof.
  unfold unit_suffix, slice. rewrite length_append. cbn [String.length].
  set (n := String.length p).
  replace (-1 <? 0) with true by reflexivity.
  destruct (Z.ltb_spec (Z.of_nat (n + 1)) 0) as [Hneg | _]; [ lia | ].
  rewrite Z.max_l by lia. rewrite Z.min_l by lia.
  replace (-1 + Z.of_nat (n + 1)) with (Z.of_nat n) by lia.
  replace (Z.of_nat (n + 1) - Z.of_nat n) with 1 by lia.
  rewrite Nat2Z.id. unfold n. rewrite substring_skip. reflexivity.
Qed.

(** Cutting at a separator loses nothing: joining the fields with the
    separator gives the text back. *)
Lemma split_on_not_nil (sep : ascii) (s : string) : split_on sep s <> [].
Proof.
  induction s as [ | c r IH ]; cbn; [ discriminate | ].
  destruct (Ascii.eqb c sep); [ discriminate | ].
  destruct (split_on sep r); [ contradiction | discriminate ].
Qed.

Lemma concat_split_on (sep : ascii) (s : string) :
  String.concat (String sep "") (split_on sep s) = s.
Proof.
  induction s as [ | c r IH ]; cbn [split_on]; [ reflexivity | ].
  pose proof (split_on_not_nil sep r) as Hnil.
  destruct (split_on sep r) as [ | t ts ]; [ contradiction | ].
  destruct (Ascii.eqb_spec c sep) as [-> | Hc].
  - change (String.concat (String sep "") ("" :: t :: ts))
      with (String sep (String.concat (String sep "") (t :: ts))).
    now rewrite IH.
  - destruct ts as [ | t' ts' ].
    + cbn [String.concat] in IH |- *. now rewrite IH.
    + change (String.concat (String sep "") (String c t :: t' :: ts'))
        with (String c (String.concat (String sep "") (t :: t' :: ts'))).
      now rewrite IH.
Qed.

(* ===================================================================== *)
(** ** Comparisons of floats *)
(* ===================================================================== *)

Lemma SFcompare_antisym (x y : PyFloat.float) (c : comparison) :
  SFcompare x y = Some c -> SFcompare y x = Some (CompOpp c).
Proof.
  destruct x as [sx | sx | | sx mx ex], y as [sy | sy | | sy my ey]; cbn;
    try discriminate;
    try (intros H; injection H as <-;
         repeat match goal with s : bool |- _ => destruct s end; reflexivity).
  intros H; injection H as <-.
  destruct sx, sy; try reflexivity.
  - rewrite (Z.compare_antisym ex ey).
    destruct (ex ?= ey); cbn; try reflexivity.
    rewrite (Pos.compare_cont_antisym mx my Eq). cbn.
    destruct (Pos.compare_cont Eq my mx); reflexivity.
  - rewrite (Z.compare_antisym ex ey).
    destruct (ex ?= ey); cbn; try reflexivity.
    rewrite (Pos.compare_cont_antisym mx my Eq). cbn.
    destruct (Pos.compare_cont Eq my mx); reflexivity.
Qed.

Lemma SFcompare_defined (x y : PyFloat.float) :
  x <> PyFloat.nan -> y <> PyFloat.nan -> exists c, SFcompare x y = Some c.
Proof.
  unfold PyFloat.nan. intros Hx Hy.
  destruct x, y; try contradiction; cbn; eauto.
Qed.

Lemma float_not_gtb_leb (x y : PyFloat.float) :
  x <> PyFloat.nan -> y <> PyFloat.nan ->
  negb (PyFloat.gtb x y) = PyFloat.leb x y.
Proof.
  intros Hx Hy. unfold PyFloat.gtb, PyFloat.leb, SFltb, SFleb.
  destruct (SFcompare_defined x y Hx Hy) as [c Hc].
  rewrite Hc, (SFcompare_antisym x y c Hc). destruct c; reflexivity.
Qed.

Lemma int_not_gtb_leb (z : Z) (f : PyFloat.float) :
  f <> PyFloat.nan -> negb (PyFloat.int_gtb z f) = PyFloat.int_leb z f.
Proof.
  unfold PyFloat.nan, PyFloat.int_gtb, PyFloat.int_leb. intros Hf.
  destruct f as [s | s | | s m e]; try contradiction; cbn.
  - destruct (z ?= 0); reflexivity.
  - destruct s; reflexivity.
  - destruct (0 <=? e); [ destruct (z ?= _) | destruct (_ ?= _) ]; reflexivity.
Qed.

Lemma int_gtb_zero (z : Z) (s : bool) : PyFloat.int_gtb z (S754_zero s) = (0 <? z).
Proof.
  unfold PyFloat.int_gtb. cbn. rewrite Z.ltb_antisym, Z.leb_compare.
  destruct (z ?= 0); reflexivity.
Qed.

Lemma mul_zero_number (x : PyFloat.float) :
  is_number x = true -> exists s, PyFloat.mul x (S754_zero false) = S754_zero s.
Proof. destruct x as [s | s | | s m e]; cbn; intros H; try discriminate; eauto. Qed.

Lemma mul_zero_not_number (x : PyFloat.float) :
  is_number x = false -> PyFloat.mul x (S754_zero false) = PyFloat.nan.
Proof. destruct x as [s | s | | s m e]; cbn; intros H; try discriminate; reflexivity. Qed.

(* ===================================================================== *)
(** ** The replica probe *)
(* ===================================================================== *)

Lemma report_instance_status_run (srv : Mongo.Server) (user pass : string) (w : World) :
  Mongo.report_instance_status srv user pass w =
  (match Mongo.replSetGetStatus srv user pass with
   | Replied z => replica_verdict z
   | Failed c args => Raise (Error c args)
   end, after_call (replica_query user pass) w).
Proof.
  unfold Mongo.report_instance_status, Mongo.get_instance_status, Mongo.MongoClient,
    ask, replica_verdict, after_call, replica_query.
  cbn.
  destruct (Mongo.replSetGetStatus srv user pass) as [z | c args]; cbn; [ | reflexivity ].
  destruct (z =? Mongo.PRIMARY_INSTANCE); [ reflexivity | ].
  destruct (z =? Mongo.SECONDARY_INSTANCE); reflexivity.
Qed.

Lemma replica_verdict_primary : replica_verdict 1 = Val primary_message.
Proof. reflexivity. Qed.

Lemma replica_verdict_secondary : replica_verdict 2 = Val secondary_message.
Proof. reflexivity. Qed.

Lemma replica_verdict_other (z : Z) :
  z <> 1 -> z <> 2 -> replica_verdict z = Raise (Error ReplicaUnhealthy [nok_message]).
Proof.
  intros H1 H2. unfold replica_verdict, Mongo.PRIMARY_INSTANCE, Mongo.SECONDARY_INSTANCE.
  destruct (Z.eqb_spec z 1); [ contradiction | ].
  destruct (Z.eqb_spec z 2); [ contradiction | reflexivity ].
Qed.

Lemma replica_verdict_raises (z : Z) (e : exn) :
  replica_verdict z = Raise e ->
  z <> 1 /\ z <> 2 /\ e = Error ReplicaUnhealthy [nok_message].
Proof.
  unfold replica_verdict, Mongo.PRIMARY_INSTANCE, Mongo.SECONDARY_INSTANCE.
  destruct (Z.eqb_spec z 1); [ discriminate | ].
  destruct (Z.eqb_spec z 2); [ discriminate | ].
  intros H. inversion H. auto.
Qed.

Lemma replica_main_run (srv : Mongo.Server) (a : Mongo.Args) :
  run_process (Mongo.main srv a) =
  let cs := [replica_query (Mongo.user a) (Mongo.password a)] in
  match Mongo.replSetGetStatus srv (Mongo.user a) (Mongo.password a) with
  | Replied z =>
      match replica_verdict z with
      | Val message => mkOutcome (message ++ newline) 0 None cs
      | Raise _ => critical_outcome [nok_message] cs
      end
  | Failed c args =>
      if caught_by_replica_main c then critical_outcome args cs
      else traceback_outcome c args cs
  end.
Proof.
  unfold run_process, Mongo.main, try_except.
  cbn [bind Monad_M].
  rewrite report_instance_status_run.
  destruct (Mongo.replSetGetStatus srv (Mongo.user a) (Mongo.password a)) as [z | c args].
  - unfold replica_verdict.
    destruct (z =? Mongo.PRIMARY_INSTANCE); [ reflexivity | ].
    destruct (z =? Mongo.SECONDARY_INSTANCE); reflexivity.
  - unfold caught_by_replica_main. cbn [find fst snd].
    destruct (issubclass c ServerSelectionTimeoutError); [ reflexivity | ].
    destruct (issubclass c OperationFailure); [ reflexivity | ].
    destruct (issubclass c ReplicaUnhealthy); reflexivity.
Qed.

(** C1. For a reported replication state, the evaluator returns the
    "Primary" message for state 1 and the "Secondary" message for state 2,
    raises ReplicaUnhealthy for every other integer, and raises nothing
    else: the last branch is the only one that signals a failure. *)
Theorem C1_replication_evaluator :
  forall (srv : Mongo.Server) (user pass : string) (z : Z) (w : World),
    Mongo.replSetGetStatus srv user pass = Replied z ->
    (z = Mongo.PRIMARY_INSTANCE ->
     fst (Mongo.report_instance_status srv user pass w)
     = Val "Ok - Replica Primary|replica_health=1;;0;;") /\
    (z = Mongo.SECONDARY_INSTANCE ->
     fst (Mongo.report_instance_status srv user pass w)
     = Val "Ok - Replica Secondary|replica_health=1;;0;;") /\
    (z <> 1 -> z <> 2 ->
     fst (Mongo.report_instance_status srv user pass w)
     = Raise (Error ReplicaUnhealthy ["Critical - Replica NOK!|replica_health=1;;0;;"])) /\
    (forall e : exn,
       fst (Mongo.report_instance_status srv user pass w) = Raise e ->
       z <> 1 /\ z <> 2 /\
       e = Error ReplicaUnhealthy ["Critical - Replica NOK!|replica_health=1;;0;;"]).
Proof.
  intros srv user pass z w Hz.
  rewrite report_instance_status_run, Hz. cbn [fst].
  split; [ | split; [ | split ] ].
  - intros ->. apply replica_verdict_primary.
  - intros ->. apply replica_verdict_secondary.
  - apply replica_verdict_other.
  - apply replica_verdict_raises.
Qed.

Lemma C1_replication_evaluator_witness :
  Mongo.replSetGetStatus secondary_server "root" "secret" = Replied 2 /\
  fst (Mongo.report_instance_status secondary_server "root" "secret" initial_world)
  = Val "Ok - Replica Secondary|replica_health=1;;0;;".
Proof.
  split; [ reflexivity | ].
  apply (C1_replication_evaluator secondary_server "root" "secret" 2 initial_world);
    reflexivity.
Defined.

(** C5. When the service reports state 1 the process prints exactly
    "Ok - Replica Primary|replica_health=1;;0;;" and exits with code 0; when it
    reports a state outside 1 and 2 the printed line contains
    "Critical - Replica NOK!" and the process exits with code 2. *)
Theorem C5_replica_end_to_end :
  forall (srv : Mongo.Server) (a : Mongo.Args) (z : Z),
    Mongo.replSetGetStatus srv (Mongo.user a) (Mongo.password a) = Replied z ->
    (z = 1 ->
     printed (run_process (Mongo.main srv a))
     = "Ok - Replica Primary|replica_health=1;;0;;" ++ newline /\
     exit_code (run_process (Mongo.main srv a)) = 0) /\
    (z <> 1 -> z <> 2 ->
     (exists pre post : string,
        printed (run_process (Mongo.main srv a))
        = pre ++ "Critical - Replica NOK!" ++ post) /\
     exit_code (run_process (Mongo.main srv a)) = 2).
Proof.
  intros srv a z Hz. rewrite replica_main_run, Hz. cbn zeta. split.
  - intros ->. split; reflexivity.
  - intros H1 H2. rewrite (replica_verdict_other z H1 H2). split; [ | reflexivity ].
    exists "", ("|replica_health=1;;0;;" ++ newline). reflexivity.
Qed.

Lemma C5_replica_end_to_end_witness :
  (Mongo.replSetGetStatus primary_server (Mongo.user root_args) (Mongo.password root_args)
   = Replied 1 /\
   printed (run_process (Mongo.main primary_server root_args))
   = "Ok - Replica Primary|replica_health=1;;0;;" ++ newline /\
   exit_code (run_process (Mongo.main primary_server root_args)) = 0) /\
  (Mongo.replSetGetStatus startup_server (Mongo.user root_args) (Mongo.password root_args)
   = Replied 0 /\
   exit_code (run_process (Mongo.main startup_server root_args)) = 2).
Proof.
  split.
  - split; [ reflexivity | ].
    apply (C5_replica_end_to_end primary_server root_args 1); reflexivity.
  - split; [ reflexivity | ].
    apply (C5_replica_end_to_end startup_server root_args 0);
      [ reflexivity | discriminate | discriminate ].
Defined.

(* ===================================================================== *)
(** ** The cache probe, step by step *)
(* ===================================================================== *)

Lemma check_latency_run (env : Redis.Env) (max_latency : PyFloat.float) (w : World) :
  Redis.check_latency env max_latency w =
  (match Redis.keydb_cli_output env with
   | Failed c args => Raise (Error c args)
   | Replied output =>
       match measured_latency output with
       | Val latency => Val (negb (PyFloat.gtb latency max_latency), latency)
       | Raise e => Raise e
       end
   end, after_call latency_run w).
Proof.
  unfold Redis.check_latency, Redis.run_keydb_latency_check, measured_latency, ask, lift.
  cbn [bind ret Monad_M Monad_result].
  change (split_whitespace "keydb-cli --latency") with ["keydb-cli"; "--latency"].
  fold latency_run. unfold after_call.
  destruct (Redis.keydb_cli_output env) as [output | c args]; cbn [of_reply]; [ | reflexivity ].
  destruct (Redis.index (split_on " " output) 2) as [token | e]; [ | reflexivity ].
  destruct (Redis.float_of_str token) as [latency | e]; [ | reflexivity ].
  destruct (PyFloat.gtb latency max_latency); reflexivity.
Qed.

Lemma check_latency_any_world (env : Redis.Env) (max_latency : PyFloat.float) (w w' : World) :
  fst (Redis.check_latency env max_latency w) = fst (Redis.check_latency env max_latency w').
Proof. rewrite !check_latency_run. reflexivity. Qed.

Lemma measured_latency_run (output token : string) (latency : PyFloat.float) :
  nth_error (split_on " " output) 2 = Some token ->
  PyFloat.of_string token = Some latency ->
  measured_latency output = Val latency.
Proof.
  intros Htoken Hlatency. unfold measured_latency, Redis.index, Redis.float_of_str.
  rewrite Htoken. cbn. rewrite Hlatency. reflexivity.
Qed.

Lemma measured_latency_raises (output : string) (e : exn) :
  measured_latency output = Raise e ->
  exists args, e = Error IndexError args \/ e = Error ValueError args.
Proof.
  unfold measured_latency, Redis.index, Redis.float_of_str.
  destruct (nth_error (split_on " " output) 2) as [token | ]; cbn.
  - destruct (PyFloat.of_string token); [ discriminate | ].
    intros H; injection H as <-. eauto.
  - intros H; injection H as <-. eauto.
Qed.

Lemma human_threshold_run (fraction v : PyFloat.float) (info : Redis.Info) :
  PyFloat.of_string (numeric_prefix (Redis.maxmemory_human info)) = Some v ->
  Redis.get_human_memory_threshold_by_percentage fraction info
  = Val (PyFloat.format_fixed 2 (PyFloat.mul v fraction)
         ++ unit_suffix (Redis.maxmemory_human info) ++ "B").
Proof.
  intros Hv. unfold Redis.get_human_memory_threshold_by_percentage, Redis.float_of_str.
  fold (numeric_prefix (Redis.maxmemory_human info)).
  fold (unit_suffix (Redis.maxmemory_human info)).
  rewrite Hv. reflexivity.
Qed.

Lemma human_threshold_fails (fraction : PyFloat.float) (info : Redis.Info) :
  PyFloat.of_string (numeric_prefix (Redis.maxmemory_human info)) = None ->
  exists args,
    Redis.get_human_memory_threshold_by_percentage fraction info
    = Raise (Error ValueError args).
Proof.
  intros Hv. unfold Redis.get_human_memory_threshold_by_percentage, Redis.float_of_str.
  fold (numeric_prefix (Redis.maxmemory_human info)).
  rewrite Hv. cbn. eauto.
Qed.

Lemma check_memory_usage_run (info : Redis.Info) (fraction fmax v : PyFloat.float) :
  PyFloat.of_int (Redis.maxmemory info) = Some fmax ->
  PyFloat.of_string (numeric_prefix (Redis.maxmemory_human info)) = Some v ->
  Redis.check_memory_usage info fraction
  = Val (negb (PyFloat.int_gtb (Redis.used_memory info) (PyFloat.mul fraction fmax)),
         PyFloat.format_fixed 2 (PyFloat.mul v fraction)
         ++ unit_suffix (Redis.maxmemory_human info) ++ "B").
Proof.
  intros Hmax Hv.
  unfold Redis.check_memory_usage, Redis.get_memory_threshold_by_percentage,
    Redis.float_mul_int.
  rewrite Hmax, (human_threshold_run fraction v info Hv). cbn.
  destruct (PyFloat.int_gtb _ _); reflexivity.
Qed.

Lemma check_memory_usage_raises (info : Redis.Info) (fraction : PyFloat.float) (e : exn) :
  Redis.check_memory_usage info fraction = Raise e ->
  exists args, e = Error OverflowError args \/ e = Error ValueError args.
Proof.
  unfold Redis.check_memory_usage, Redis.get_memory_threshold_by_percentage,
    Redis.get_human_memory_threshold_by_percentage, Redis.float_mul_int,
    Redis.float_of_str.
  destruct (PyFloat.of_int (Redis.maxmemory info)); cbn.
  - destruct (PyFloat.of_string _); cbn.
    + destruct (PyFloat.int_gtb _ _); discriminate.
    + intros H; injection H as <-. eauto.
  - intros H; injection H as <-. eauto.
Qed.

Lemma report_stats_run (env : Redis.Env) (ml mm : option PyFloat.float) (w : World) :
  Redis.report_stats env ml mm w =
  let fraction := Redis.resolve mm (Redis.ARGS Redis.MAX_PERCENTUAL_MEMORY_USAGE) in
  let limit := Redis.resolve ml (Redis.ARGS Redis.MAX_LATENCY_MS) in
  match Redis.info_reply env with
  | Failed c args => (Raise (Error c args), after_call RedisInfo w)
  | Replied info =>
      match Redis.check_memory_usage info fraction with
      | Raise e => (Raise e, after_call RedisInfo w)
      | Val (memory_healthy, allowed) =>
          match Redis.check_latency env limit (after_call RedisInfo w) with
          | (Raise e, w') => (Raise e, w')
          | (Val (latency_healthy, latency), w') =>
              let message :=
                Redis.format_message memory_healthy allowed latency_healthy limit
                                     info latency in
              (if memory_healthy && latency_healthy then Val message
               else Raise (Error RedisError [message]), w')
          end
      end
  end.
Proof.
  unfold Redis.report_stats, ask, lift, raise. cbn [bind ret Monad_M].
  fold (after_call RedisInfo w).
  destruct (Redis.info_reply env) as [info | c args]; cbn [of_reply]; [ | reflexivity ].
  destruct (Redis.check_memory_usage info _) as [[memory_healthy allowed] | e];
    [ | reflexivity ].
  destruct (Redis.check_latency env _ _) as [[[latency_healthy latency] | e] w'];
    [ | reflexivity ].
  destruct memory_healthy, latency_healthy; reflexivity.
Qed.

Lemma cache_main_run (env : Redis.Env) (a : Redis.Args) :
  run_process (Redis.main env a) =
  cache_outcome (Redis.report_stats env (Redis.max_latency a) (Redis.max_memory_usage a)
                                    initial_world).
Proof.
  unfold run_process, Redis.main, try_except, cache_outcome.
  cbn [bind Monad_M].
  destruct (Redis.report_stats env _ _ initial_world) as [[message | [c args | code]] w].
  - reflexivity.
  - cbn [find fst snd]. destruct (issubclass c RedisError); reflexivity.
  - reflexivity.
Qed.

Lemma cache_outcome_healthy (message : string) (w : World) :
  cache_outcome (Val message, w)
  = mkOutcome (stdout w ++ message ++ newline) 0 None (trace w).
Proof. reflexivity. Qed.

Lemma cache_outcome_unhealthy (message : string) (w : World) :
  cache_outcome (Raise (Error RedisError [message]), w)
  = mkOutcome (stdout w ++ message ++ newline) 2 None (trace w).
Proof. reflexivity. Qed.

Lemma cache_outcome_error (c : error_class) (args : list string) (w : World) :
  exit_code (cache_outcome (@Raise string (Error c args), w)) <> 0 /\
  calls (cache_outcome (@Raise string (Error c args), w)) = trace w.
Proof.
  unfold cache_outcome. destruct (issubclass c RedisError); split;
    first [ discriminate | reflexivity ].
Qed.

(** A run in which the telemetry was obtained. *)
Lemma cache_run (env : Redis.Env) (a : Redis.Args) (info : Redis.Info)
    (fmax v latency : PyFloat.float) (output token : string) :
  Redis.info_reply env = Replied info ->
  PyFloat.of_int (Redis.maxmemory info) = Some fmax ->
  PyFloat.of_string (numeric_prefix (Redis.maxmemory_human info)) = Some v ->
  Redis.keydb_cli_output env = Replied output ->
  nth_error (split_on " " output) 2 = Some token ->
  PyFloat.of_string token = Some latency ->
  let memory_healthy :=
    negb (PyFloat.int_gtb (Redis.used_memory info)
                          (PyFloat.mul (memory_fraction a) fmax)) in
  let latency_healthy := negb (PyFloat.gtb latency (latency_limit a)) in
  let allowed :=
    PyFloat.format_fixed 2 (PyFloat.mul v (memory_fraction a))
    ++ unit_suffix (Redis.maxmemory_human info) ++ "B" in
  let message :=
    Redis.format_message memory_healthy allowed latency_healthy (latency_limit a)
                         info latency in
  Redis.report_stats env (Redis.max_latency a) (Redis.max_memory_usage a) initial_world
  = (if memory_healthy && latency_healthy then Val message
     else Raise (Error RedisError [message]),
     after_call latency_run (after_call RedisInfo initial_world)).
Proof.
  intros Hinfo Hmax Hv Hout Htoken Hlatency. cbn zeta.
  rewrite report_stats_run. cbn zeta. fold (memory_fraction a) (latency_limit a).
  rewrite Hinfo.
  rewrite (check_memory_usage_run info _ fmax v Hmax Hv).
  rewrite check_latency_run, Hout.
  rewrite (measured_latency_run output token latency Htoken Hlatency).
  reflexivity.
Qed.

Lemma format_message_layout (memory_healthy latency_healthy : bool)
    (allowed : string) (limit latency : PyFloat.float) (info : Redis.Info) :
  Redis.format_message memory_healthy allowed latency_healthy limit info latency
  = high_marker memory_healthy ++ " memory usage: "
    ++ Redis.used_memory_human info ++ "B used of "
    ++ Redis.maxmemory_human info ++ "B / "
    ++ high_marker latency_healthy ++ " average latency: "
    ++ PyFloat.repr latency ++ " ms|used_memory="
    ++ Redis.used_memory_human info ++ "B;;" ++ allowed
    ++ ";; average_latency=" ++ PyFloat.repr latency
    ++ ";;" ++ PyFloat.repr limit ++ ";;".
Proof.
  unfold Redis.format_message, high_marker.
  destruct memory_healthy, latency_healthy; cbn [negb];
    repeat rewrite append_assoc; reflexivity.
Qed.

Lemma resolve_again (value : option PyFloat.float) (default : PyFloat.float) :
  Redis.resolve (Some (Redis.resolve value default)) default = Redis.resolve value default.
Proof.
  unfold Redis.resolve. destruct value as [x | ].
  - destruct (PyFloat.truthy x) eqn:Hx; cbn [negb].
    + rewrite Hx. reflexivity.
    + destruct (negb (PyFloat.truthy default)); reflexivity.
  - destruct (negb (PyFloat.truthy default)); reflexivity.
Qed.

(* ===================================================================== *)
(** ** Thresholds and the memory check *)
(* ===================================================================== *)

Lemma report_stats_checked (env : Redis.Env) (info : Redis.Info)
    (ml mm : option PyFloat.float) (w : World) :
  Redis.info_reply env = Replied info ->
  Redis.report_stats env ml mm w
  = checked_report env info
      (Redis.resolve mm (PyFloat.literal "0.95"))
      (Redis.resolve ml (PyFloat.literal "20.0"))
      (after_call RedisInfo w).
Proof.
  intros Hinfo. rewrite report_stats_run. cbn zeta. rewrite Hinfo.
  reflexivity.
Qed.

Lemma checked_report_at (env : Redis.Env) (info : Redis.Info)
    (fmax v latency fraction limit : PyFloat.float) (output token : string) (w : World) :
  PyFloat.of_int (Redis.maxmemory info) = Some fmax ->
  PyFloat.of_string (numeric_prefix (Redis.maxmemory_human info)) = Some v ->
  Redis.keydb_cli_output env = Replied output ->
  nth_error (split_on " " output) 2 = Some token ->
  PyFloat.of_string token = Some latency ->
  checked_report env info fraction limit w
  = (report_at info fmax v latency fraction limit, after_call latency_run w).
Proof.
  intros Hmax Hv Hout Htoken Hlatency. unfold checked_report, report_at.
  rewrite (check_memory_usage_run info fraction fmax v Hmax Hv).
  rewrite check_latency_run, Hout.
  rewrite (measured_latency_run output token latency Htoken Hlatency).
  reflexivity.
Qed.

(** C3. Threshold resolution returns the default when the override is absent
    or a zero, and the override unchanged otherwise; resolve(None, 20.0) =
    20.0, resolve(5.0, 20.0) = 5.0, resolve(0, 20.0) = 20.0. [report_stats]
    settles both of its thresholds this way, the latency limit against 20.0
    and the memory fraction against 0.95, before it uses them: the memory
    check runs with the settled fraction, the latency check with the settled
    limit, and the message shows the settled limit. With no override, or with
    zeros, these are 0.95 and 20.0; with non-zero overrides they are the
    overrides. When the telemetry is obtained, the settled fraction is the one
    multiplied with the memory limit and the settled limit the one compared
    with the measured latency. So a measured 10.0 ms is healthy with no
    [-l] and with [-l 0], and unhealthy with [-l 5.0]; six megabytes used of
    3.59G are healthy with no [-m] and with [-m 0], and unhealthy with
    [-m 0.001]. *)
Theorem C3_threshold_resolution :
  (forall default, Redis.resolve None default = default) /\
  (forall s default, Redis.resolve (Some (S754_zero s)) default = default) /\
  (forall x default, PyFloat.truthy x = true -> Redis.resolve (Some x) default = x) /\
  Redis.resolve None (PyFloat.literal "20.0") = PyFloat.literal "20.0" /\
  Redis.resolve (Some (PyFloat.literal "5.0")) (PyFloat.literal "20.0")
  = PyFloat.literal "5.0" /\
  Redis.resolve (Some (PyFloat.literal "0")) (PyFloat.literal "20.0")
  = PyFloat.literal "20.0" /\
  Redis.ARGS Redis.MAX_LATENCY_MS = PyFloat.literal "20.0" /\
  Redis.ARGS Redis.MAX_PERCENTUAL_MEMORY_USAGE = PyFloat.literal "0.95" /\
  (forall env max_latency max_memory_usage w,
     Redis.report_stats env max_latency max_memory_usage w
     = Redis.report_stats env
         (Some (Redis.resolve max_latency (PyFloat.literal "20.0")))
         (Some (Redis.resolve max_memory_usage (PyFloat.literal "0.95"))) w) /\
  (forall env info max_latency max_memory_usage w,
     Redis.info_reply env = Replied info ->
     Redis.report_stats env max_latency max_memory_usage w
     = checked_report env info
         (Redis.resolve max_memory_usage (PyFloat.literal "0.95"))
         (Redis.resolve max_latency (PyFloat.literal "20.0"))
         (after_call RedisInfo w)) /\
  (forall env info w,
     Redis.info_reply env = Replied info ->
     Redis.report_stats env None None w
     = checked_report env info (PyFloat.literal "0.95") (PyFloat.literal "20.0")
         (after_call RedisInfo w)) /\
  (forall env info s s' w,
     Redis.info_reply env = Replied info ->
     Redis.report_stats env (Some (S754_zero s)) (Some (S754_zero s')) w
     = checked_report env info (PyFloat.literal "0.95") (PyFloat.literal "20.0")
         (after_call RedisInfo w)) /\
  (forall env info fraction limit w,
     Redis.info_reply env = Replied info ->
     PyFloat.truthy fraction = true ->
     PyFloat.truthy limit = true ->
     Redis.report_stats env (Some limit) (Some fraction) w
     = checked_report env info fraction limit (after_call RedisInfo w)) /\
  (forall env info fmax v latency fraction limit output token w,
     PyFloat.of_int (Redis.maxmemory info) = Some fmax ->
     PyFloat.of_string (numeric_prefix (Redis.maxmemory_human info)) = Some v ->
     Redis.keydb_cli_output env = Replied output ->
     nth_error (split_on " " output) 2 = Some token ->
     PyFloat.of_string token = Some latency ->
     fst (checked_report env info fraction limit w)
     = report_at info fmax v latency fraction limit) /\
  (exit_code (run_process (Redis.main moderate_env default_args)) = 0 /\
   printed (run_process (Redis.main moderate_env default_args))
   = " memory usage: 6.02MB used of 3.59GB /  average latency: 10.0 ms"
     ++ "|used_memory=6.02MB;;3.41GB;; average_latency=10.0;;20.0;;" ++ newline /\
   exit_code (run_process (Redis.main moderate_env strict_latency_args)) = 2 /\
   printed (run_process (Redis.main moderate_env strict_latency_args))
   = " memory usage: 6.02MB used of 3.59GB / high average latency: 10.0 ms"
     ++ "|used_memory=6.02MB;;3.41GB;; average_latency=10.0;;5.0;;" ++ newline /\
   exit_code (run_process (Redis.main moderate_env strict_memory_args)) = 2 /\
   printed (run_process (Redis.main moderate_env strict_memory_args))
   = "high memory usage: 6.02MB used of 3.59GB /  average latency: 10.0 ms"
     ++ "|used_memory=6.02MB;;0.00GB;; average_latency=10.0;;20.0;;" ++ newline /\
   run_process (Redis.main moderate_env zero_args)
   = run_process (Redis.main moderate_env default_args)).
Proof.
  split; [ reflexivity | ].
  split; [ reflexivity | ].
  split; [ intros x default Hx; unfold Redis.resolve; now rewrite Hx | ].
  split; [ reflexivity | ].
  split; [ reflexivity | ].
  split; [ reflexivity | ].
  split; [ reflexivity | ].
  split; [ reflexivity | ].
  split.
  { intros env ml mm w. rewrite !report_stats_run. cbn zeta.
    change (Redis.ARGS Redis.MAX_LATENCY_MS) with (PyFloat.literal "20.0").
    change (Redis.ARGS Redis.MAX_PERCENTUAL_MEMORY_USAGE) with (PyFloat.literal "0.95").
    rewrite !resolve_again. reflexivity. }
  split; [ intros env info ml mm w Hinfo; now apply report_stats_checked | ].
  split; [ intros env info w Hinfo; now rewrite (report_stats_checked env info) | ].
  split; [ intros env info s s' w Hinfo; now rewrite (report_stats_checked env info) | ].
  split.
  { intros env info fraction limit w Hinfo Hfraction Hlimit.
    rewrite (report_stats_checked env info _ _ w Hinfo).
    unfold Redis.resolve. rewrite Hfraction, Hlimit. reflexivity. }
  split.
  { intros env info fmax v latency fraction limit output token w
           Hmax Hv Hout Htoken Hlatency.
    now rewrite (checked_report_at env info fmax v latency fraction limit output token w). }
  repeat split; vm_compute; reflexivity.
Qed.

Lemma C3_threshold_resolution_witness :
  Redis.info_reply moderate_env = Replied sample_info /\
  PyFloat.truthy (PyFloat.literal "0.5") = true /\
  PyFloat.truthy (PyFloat.literal "5.0") = true /\
  Redis.report_stats moderate_env (Some (PyFloat.literal "5.0"))
                     (Some (PyFloat.literal "0.5")) initial_world
  = checked_report moderate_env sample_info (PyFloat.literal "0.5") (PyFloat.literal "5.0")
      (after_call RedisInfo initial_world).
Proof.
  repeat (split; [ reflexivity | ]).
  apply (proj1 (proj2 (proj2 (proj2 (proj2 (proj2 (proj2 (proj2 (proj2 (proj2
           (proj2 (proj2 (proj2 C3_threshold_resolution))))))))))))
           moderate_env sample_info (PyFloat.literal "0.5") (PyFloat.literal "5.0")
           initial_world eq_refl eq_refl eq_refl).
Defined.

(** C2 as stated fails: with the fraction NaN (the command line accepts
    [-m nan]) and no configured limit, one used byte passes the check, although
    [1 <= nan * 0] is false and the claim has the check fail for every
    used > 0 when the limit is 0. *)
Lemma C2_counterexample :
  PyFloat.of_string "nan" = Some PyFloat.nan /\
  Redis.maxmemory unbounded_info = 0 /\
  0 < Redis.used_memory unbounded_info /\
  PyFloat.of_int (Redis.maxmemory unbounded_info) = Some (S754_zero false) /\
  PyFloat.int_leb (Redis.used_memory unbounded_info)
                  (PyFloat.mul PyFloat.nan (S754_zero false)) = false /\
  Redis.check_memory_usage unbounded_info PyFloat.nan = Val (true, "nanBB").
Proof. repeat split. Qed.

(** C2, amended. Whenever the check is evaluated (the limit converts to a
    float and the human-readable limit parses), it is unhealthy exactly when
    [used_memory > fraction * maxmemory], the int being compared exactly with
    the float product, and healthy otherwise; this is
    [used_memory <= fraction * maxmemory] whenever the product is not NaN, and
    a NaN product passes. When [maxmemory] is 0 and the fraction is a number
    (neither infinite nor NaN), the limit is a zero, the check fails for every
    [used_memory > 0] and passes for [used_memory = 0], and for no other
    non-negative value; when the fraction is no number, it passes. *)
Theorem C2_memory_verdict :
  forall (info : Redis.Info) (fraction fmax v : PyFloat.float),
    PyFloat.of_int (Redis.maxmemory info) = Some fmax ->
    PyFloat.of_string (numeric_prefix (Redis.maxmemory_human info)) = Some v ->
    exists (healthy : bool) (allowed_human : string),
      Redis.check_memory_usage info fraction = Val (healthy, allowed_human) /\
      (healthy = false <->
       PyFloat.int_gtb (Redis.used_memory info) (PyFloat.mul fraction fmax) = true) /\
      (PyFloat.mul fraction fmax <> PyFloat.nan ->
       (healthy = true <->
        PyFloat.int_leb (Redis.used_memory info) (PyFloat.mul fraction fmax) = true)) /\
      (PyFloat.mul fraction fmax = PyFloat.nan -> healthy = true) /\
      (Redis.maxmemory info = 0 -> is_number fraction = true ->
       (exists s, PyFloat.mul fraction fmax = S754_zero s) /\
       (0 < Redis.used_memory info -> healthy = false) /\
       (Redis.used_memory info = 0 -> healthy = true) /\
       (0 <= Redis.used_memory info -> healthy = true -> Redis.used_memory info = 0)) /\
      (Redis.maxmemory info = 0 -> is_number fraction = false -> healthy = true).
Proof.
  intros info fraction fmax v Hmax Hv.
  eexists _, _. split; [ exact (check_memory_usage_run info fraction fmax v Hmax Hv) | ].
  assert (Redis.maxmemory info = 0 -> fmax = S754_zero false) as Hzero.
  { intros H0. rewrite H0 in Hmax. cbv in Hmax. congruence. }
  split; [ | split; [ | split; [ | split ] ] ].
  - destruct (PyFloat.int_gtb _ _); cbn; split; congruence.
  - intros Hnan. rewrite (int_not_gtb_leb _ _ Hnan). tauto.
  - intros ->. reflexivity.
  - intros H0 Hnum. rewrite (Hzero H0).
    destruct (mul_zero_number fraction Hnum) as [s Hs].
    rewrite Hs, int_gtb_zero. split; [ eauto | ].
    split; [ | split ].
    + intros Hpos. apply Z.ltb_lt in Hpos. now rewrite Hpos.
    + intros ->. reflexivity.
    + intros Hnonneg Hhealthy. destruct (Z.ltb_spec 0 (Redis.used_memory info)).
      * discriminate.
      * lia.
  - intros H0 Hnum. rewrite (Hzero H0), (mul_zero_not_number fraction Hnum). reflexivity.
Qed.

Lemma C2_memory_verdict_witness :
  PyFloat.of_int (Redis.maxmemory sample_info) = Some (PyFloat.literal "3854733148") /\
  PyFloat.of_string (numeric_prefix (Redis.maxmemory_human sample_info))
  = Some (PyFloat.literal "3.59") /\
  exists (healthy : bool) (allowed_human : string),
    Redis.check_memory_usage sample_info (PyFloat.literal "0.95")
    = Val (healthy, allowed_human).
Proof.
  split; [ reflexivity | split; [ reflexivity | ] ].
  destruct (C2_memory_verdict sample_info (PyFloat.literal "0.95")
              (PyFloat.literal "3854733148") (PyFloat.literal "3.59")
              eq_refl eq_refl) as (healthy & allowed_human & Hrun & _).
  exists healthy, allowed_human. exact Hrun.
Defined.

(* ===================================================================== *)
(** ** The human-readable limit *)
(* ===================================================================== *)

(** C4 as stated fails: the limit takes its unit from the max-memory string,
    so against the measured value "6.02M" the limit reads "3.41GB", a G
    against an M. *)
Lemma C4_counterexample :
  Redis.get_human_memory_threshold_by_percentage (PyFloat.literal "0.95") sample_info
  = Val "3.41GB" /\
  Redis.used_memory_human sample_info = "6.02M" /\
  unit_suffix (numeric_prefix "3.41GB") = "G" /\
  unit_suffix (Redis.used_memory_human sample_info) = "M" /\
  unit_suffix (numeric_prefix "3.41GB") <> unit_suffix (Redis.used_memory_human sample_info).
Proof. repeat split. discriminate. Qed.

(** C4, amended. For a max-memory string made of a prefix and one trailing
    unit character, where the prefix parses as a float, the limit is the
    product of that float and the fraction, shown with 2 decimals, followed by
    the same unit character and a "B"; "3.59G" and 0.95 give "3.41GB". The
    unit of the limit is the unit of the max-memory string. *)
Theorem C4_human_limit :
  forall (fraction v : PyFloat.float) (info : Redis.Info) (prefix : string) (unit : ascii),
    Redis.maxmemory_human info = prefix ++ String unit "" ->
    PyFloat.of_string prefix = Some v ->
    Redis.get_human_memory_threshold_by_percentage fraction info
    = Val (PyFloat.format_fixed 2 (PyFloat.mul v fraction) ++ String unit "B") /\
    unit_suffix (numeric_prefix
                   (PyFloat.format_fixed 2 (PyFloat.mul v fraction) ++ String unit "B"))
    = unit_suffix (Redis.maxmemory_human info) /\
    (forall other : Redis.Info,
       Redis.maxmemory_human other = "3.59G" ->
       Redis.get_human_memory_threshold_by_percentage (PyFloat.literal "0.95") other
       = Val "3.41GB").
Proof.
  intros fraction v info prefix unit Hhuman Hv.
  split; [ | split ].
  - rewrite (human_threshold_run fraction v info).
    + rewrite Hhuman, unit_suffix_snoc. reflexivity.
    + rewrite Hhuman, numeric_prefix_snoc. exact Hv.
  - change (String unit "B") with (String unit "" ++ "B").
    rewrite <- append_assoc, numeric_prefix_snoc, Hhuman, !unit_suffix_snoc.
    reflexivity.
  - intros other Hother.
    rewrite (human_threshold_run _ (PyFloat.literal "3.59") other);
      rewrite Hother; reflexivity.
Qed.

Lemma C4_human_limit_witness :
  Redis.maxmemory_human sample_info = "3.59" ++ String "G" "" /\
  PyFloat.of_string "3.59" = Some (PyFloat.literal "3.59") /\
  Redis.get_human_memory_threshold_by_percentage (PyFloat.literal "0.95") sample_info
  = Val (PyFloat.format_fixed 2 (PyFloat.mul (PyFloat.literal "3.59") (PyFloat.literal "0.95"))
         ++ String "G" "B").
Proof.
  split; [ reflexivity | split; [ reflexivity | ] ].
  apply (C4_human_limit (PyFloat.literal "0.95") (PyFloat.literal "3.59") sample_info
           "3.59" "G"); reflexivity.
Defined.

(* ===================================================================== *)
(** ** The message *)
(* ===================================================================== *)

(** C6. The message of the cache probe is the marker of the memory check,
    " memory usage: ", the used and maximal memory with a "B" each, the marker
    of the latency check, the latency, and the performance data
    "used_memory=...;;allowed;; average_latency=...;;limit;;"; a marker is
    "high" for an unhealthy sub-check and empty for a healthy one. With 6.02M
    used of 3.59G, a latency of 0.07 and the default thresholds the probe
    prints " memory usage: 6.02MB used of 3.59GB /  average latency: 0.07
    ms|used_memory=6.02MB;;3.41GB;; average_latency=0.07;;20.0;;" and exits
    with 0. *)
Theorem C6_message_format :
  (forall (memory_healthy latency_healthy : bool) (allowed : string)
          (limit latency : PyFloat.float) (info : Redis.Info),
     Redis.format_message memory_healthy allowed latency_healthy limit info latency
     = (if memory_healthy then "" else "high") ++ " memory usage: "
       ++ Redis.used_memory_human info ++ "B used of "
       ++ Redis.maxmemory_human info ++ "B / "
       ++ (if latency_healthy then "" else "high") ++ " average latency: "
       ++ PyFloat.repr latency ++ " ms|used_memory="
       ++ Redis.used_memory_human info ++ "B;;" ++ allowed
       ++ ";; average_latency=" ++ PyFloat.repr latency
       ++ ";;" ++ PyFloat.repr limit ++ ";;") /\
  Redis.info_reply quiet_env = Replied (Redis.mkInfo 6312427 "6.02M" 3854733148 "3.59G") /\
  measured_latency ("0 1 0.07 1234" ++ newline) = Val (PyFloat.literal "0.07") /\
  printed (run_process (Redis.main quiet_env default_args))
  = " memory usage: 6.02MB used of 3.59GB /  average latency: 0.07 ms|used_memory=6.02MB;;3.41GB;; average_latency=0.07;;20.0;;"
    ++ newline /\
  exit_code (run_process (Redis.main quiet_env default_args)) = 0.
Proof.
  split; [ | repeat split ].
  intros. apply format_message_layout.
Qed.

(* ===================================================================== *)
(** ** The latency check *)
(* ===================================================================== *)

(** C7 as stated fails twice. The fields are cut at every single space, not at
    runs of whitespace: of "0  1 0.07 5" the third whitespace-delimited token
    is "0.07", and the check measures 1.0. And with the limit NaN (the command
    line accepts [-l nan]) a latency of 25.0 is healthy although
    [25.0 <= nan] is false. *)
Lemma C7_counterexample :
  (nth_error (split_whitespace "0  1 0.07 5") 2 = Some "0.07" /\
   PyFloat.of_string "0.07" = Some (PyFloat.literal "0.07") /\
   Redis.keydb_cli_output double_space_env = Replied "0  1 0.07 5" /\
   fst (Redis.check_latency double_space_env (PyFloat.literal "20.0") initial_world)
   = Val (true, PyFloat.literal "1") /\
   PyFloat.literal "1" <> PyFloat.literal "0.07") /\
  (PyFloat.of_string "nan" = Some PyFloat.nan /\
   fst (Redis.check_latency slow_env PyFloat.nan initial_world)
   = Val (true, PyFloat.literal "25.0") /\
   PyFloat.leb (PyFloat.literal "25.0") PyFloat.nan = false).
Proof. repeat split. discriminate. Qed.

(** C7, amended. When the output of the latency tool, cut at every single
    space, has a third field that parses as a float, the check takes that
    field as the measured latency; it is unhealthy exactly when the latency is
    greater than the limit, which for a latency and a limit that are not NaN
    means healthy exactly when latency <= limit. When the memory check is
    healthy and the latency check is not, "high" stands before
    "average latency" only, and the run exits with 2; so it is for a latency
    of 25.0 against the default 20.0. *)
Theorem C7_latency_check :
  forall (env : Redis.Env) (latency : PyFloat.float) (output token : string),
    Redis.keydb_cli_output env = Replied output ->
    nth_error (split_on " " output) 2 = Some token ->
    PyFloat.of_string token = Some latency ->
    (forall (limit : PyFloat.float) (w : World),
       fst (Redis.check_latency env limit w)
       = Val (negb (PyFloat.gtb latency limit), latency) /\
       (latency <> PyFloat.nan -> limit <> PyFloat.nan ->
        negb (PyFloat.gtb latency limit) = PyFloat.leb latency limit)) /\
    (forall (a : Redis.Args) (info : Redis.Info) (fmax v : PyFloat.float),
       Redis.info_reply env = Replied info ->
       PyFloat.of_int (Redis.maxmemory info) = Some fmax ->
       PyFloat.of_string (numeric_prefix (Redis.maxmemory_human info)) = Some v ->
       PyFloat.int_gtb (Redis.used_memory info) (PyFloat.mul (memory_fraction a) fmax)
       = false ->
       PyFloat.gtb latency (latency_limit a) = true ->
       printed (run_process (Redis.main env a))
       = " memory usage: " ++ Redis.used_memory_human info ++ "B used of "
         ++ Redis.maxmemory_human info ++ "B / high average latency: "
         ++ PyFloat.repr latency ++ " ms|used_memory="
         ++ Redis.used_memory_human info ++ "B;;"
         ++ PyFloat.format_fixed 2 (PyFloat.mul v (memory_fraction a))
         ++ unit_suffix (Redis.maxmemory_human info) ++ "B"
         ++ ";; average_latency=" ++ PyFloat.repr latency
         ++ ";;" ++ PyFloat.repr (latency_limit a) ++ ";;" ++ newline /\
       exit_code (run_process (Redis.main env a)) = 2) /\
    PyFloat.gtb (PyFloat.literal "25.0") (latency_limit default_args) = true /\
    printed (run_process (Redis.main slow_env default_args))
    = " memory usage: 6.02MB used of 3.59GB / high average latency: 25.0 ms|used_memory=6.02MB;;3.41GB;; average_latency=25.0;;20.0;;"
      ++ newline /\
    exit_code (run_process (Redis.main slow_env default_args)) = 2.
Proof.
  intros env latency output token Hout Htoken Hlatency.
  split; [ | split; [ | repeat split ] ].
  - intros limit w. split.
    + rewrite check_latency_run, Hout.
      rewrite (measured_latency_run output token latency Htoken Hlatency). reflexivity.
    + apply float_not_gtb_leb.
  - intros a info fmax v Hinfo Hmax Hv Hmem Hslow.
    rewrite cache_main_run.
    rewrite (cache_run env a info fmax v latency output token
               Hinfo Hmax Hv Hout Htoken Hlatency).
    cbn zeta. rewrite Hmem, Hslow. cbn [negb andb].
    rewrite cache_outcome_unhealthy, format_message_layout.
    cbn [printed exit_code stdout after_call initial_world high_marker].
    split; [ | reflexivity ].
    repeat rewrite append_assoc. reflexivity.
Qed.

Lemma C7_latency_check_witness :
  Redis.keydb_cli_output slow_env = Replied ("0 1 25.0 1234" ++ newline) /\
  nth_error (split_on " " ("0 1 25.0 1234" ++ newline)) 2 = Some "25.0" /\
  PyFloat.of_string "25.0" = Some (PyFloat.literal "25.0") /\
  fst (Redis.check_latency slow_env (PyFloat.literal "20.0") initial_world)
  = Val (negb (PyFloat.gtb (PyFloat.literal "25.0") (PyFloat.literal "20.0")),
         PyFloat.literal "25.0").
Proof.
  repeat (split; [ reflexivity | ]).
  apply (proj1 (C7_latency_check slow_env (PyFloat.literal "25.0")
                  ("0 1 25.0 1234" ++ newline) "25.0" eq_refl eq_refl eq_refl)
           (PyFloat.literal "20.0") initial_world).
Defined.

(* ===================================================================== *)
(** ** What a run prints *)
(* ===================================================================== *)

(** C9. When the telemetry was obtained, the line on standard output is the
    whole formatted message for the measured values, whatever the verdict: an
    unhealthy verdict raises a RedisError whose only argument is that message,
    [main] prints it and exits with 2, and a healthy one prints it and exits
    with 0. *)
Theorem C9_unhealthy_run_prints_whole_message :
  forall (env : Redis.Env) (a : Redis.Args) (info : Redis.Info)
         (fmax v latency : PyFloat.float) (output token : string),
    Redis.info_reply env = Replied info ->
    PyFloat.of_int (Redis.maxmemory info) = Some fmax ->
    PyFloat.of_string (numeric_prefix (Redis.maxmemory_human info)) = Some v ->
    Redis.keydb_cli_output env = Replied output ->
    nth_error (split_on " " output) 2 = Some token ->
    PyFloat.of_string token = Some latency ->
    let memory_healthy :=
      negb (PyFloat.int_gtb (Redis.used_memory info)
                            (PyFloat.mul (memory_fraction a) fmax)) in
    let latency_healthy := negb (PyFloat.gtb latency (latency_limit a)) in
    let allowed :=
      PyFloat.format_fixed 2 (PyFloat.mul v (memory_fraction a))
      ++ unit_suffix (Redis.maxmemory_human info) ++ "B" in
    let message :=
      Redis.format_message memory_healthy allowed latency_healthy (latency_limit a)
                           info latency in
    Redis.check_memory_usage info (memory_fraction a) = Val (memory_healthy, allowed) /\
    fst (Redis.check_latency env (latency_limit a) initial_world)
    = Val (latency_healthy, latency) /\
    printed (run_process (Redis.main env a)) = message ++ newline /\
    exit_code (run_process (Redis.main env a))
    = (if memory_healthy && latency_healthy then 0 else 2) /\
    (memory_healthy && latency_healthy = false ->
     fst (Redis.report_stats env (Redis.max_latency a) (Redis.max_memory_usage a)
                             initial_world)
     = Raise (Error RedisError [message])).
Proof.
  intros env a info fmax v latency output token Hinfo Hmax Hv Hout Htoken Hlatency.
  cbn zeta. rewrite cache_main_run.
  rewrite (cache_run env a info fmax v latency output token Hinfo Hmax Hv Hout Htoken Hlatency).
  cbn zeta.
  split; [ exact (check_memory_usage_run info _ fmax v Hmax Hv) | ].
  split.
  { rewrite check_latency_run, Hout.
    rewrite (measured_latency_run output token latency Htoken Hlatency). reflexivity. }
  destruct (negb (PyFloat.int_gtb _ _) && negb (PyFloat.gtb _ _)); cbn;
    repeat split; try reflexivity; try discriminate.
Qed.

Lemma C9_unhealthy_run_prints_whole_message_witness :
  Redis.info_reply slow_env = Replied sample_info /\
  PyFloat.of_int (Redis.maxmemory sample_info) = Some (PyFloat.literal "3854733148") /\
  PyFloat.of_string (numeric_prefix (Redis.maxmemory_human sample_info))
  = Some (PyFloat.literal "3.59") /\
  Redis.keydb_cli_output slow_env = Replied ("0 1 25.0 1234" ++ newline) /\
  nth_error (split_on " " ("0 1 25.0 1234" ++ newline)) 2 = Some "25.0" /\
  PyFloat.of_string "25.0" = Some (PyFloat.literal "25.0") /\
  exit_code (run_process (Redis.main slow_env default_args)) = 2.
Proof.
  repeat (split; [ reflexivity | ]).
  apply (C9_unhealthy_run_prints_whole_message slow_env default_args sample_info
           (PyFloat.literal "3854733148") (PyFloat.literal "3.59") (PyFloat.literal "25.0")
           ("0 1 25.0 1234" ++ newline) "25.0" eq_refl eq_refl eq_refl eq_refl eq_refl eq_refl).
Defined.

(* ===================================================================== *)
(** ** Errors that leave the cache probe *)
(* ===================================================================== *)

(** C10 as stated fails: the output "0  1" of the latency tool has two
    whitespace-delimited tokens, fewer than three, and no IndexError is
    raised. [split(' ')] cuts it into the three fields "0", "" and "1", the
    third one is read as a latency of 1.0 ms, and the run ends healthy with
    status 0. *)
Lemma C10_counterexample :
  Redis.keydb_cli_output gap_env = Replied "0  1" /\
  split_whitespace "0  1" = ["0"; "1"] /\
  (length (split_whitespace "0  1") < 3)%nat /\
  split_on " " "0  1" = ["0"; ""; "1"] /\
  fst (Redis.check_latency gap_env (PyFloat.literal "20.0") initial_world)
  = Val (true, PyFloat.literal "1.0") /\
  uncaught (run_process (Redis.main gap_env default_args)) = None /\
  exit_code (run_process (Redis.main gap_env default_args)) = 0 /\
  printed (run_process (Redis.main gap_env default_args))
  = " memory usage: 6.02MB used of 3.59GB /  average latency: 1.0 ms"
    ++ "|used_memory=6.02MB;;3.41GB;; average_latency=1.0;;20.0;;" ++ newline.
Proof.
  split; [ reflexivity | ].
  split; [ reflexivity | ].
  split; [ cbn; lia | ].
  split; [ reflexivity | ].
  repeat split; vm_compute; reflexivity.
Qed.

(** C10, amended. [main] of the cache probe catches RedisError only. When the
    prefix of the human-readable limit does not parse as a float (as for the
    bare "0"), a ValueError leaves the process, and when the output of the
    latency tool, cut at every single space, has fewer than three fields an
    IndexError does: nothing is printed and the exit status is 1, not 2. *)
Theorem C10_uncaught_errors :
  (forall (env : Redis.Env) (a : Redis.Args) (c : error_class) (args : list string)
          (w : World),
     Redis.report_stats env (Redis.max_latency a) (Redis.max_memory_usage a) initial_world
     = (Raise (Error c args), w) ->
     issubclass c RedisError = false ->
     uncaught (run_process (Redis.main env a)) = Some (Error c args) /\
     printed (run_process (Redis.main env a)) = stdout w /\
     exit_code (run_process (Redis.main env a)) = 1) /\
  issubclass ValueError RedisError = false /\
  issubclass IndexError RedisError = false /\
  (forall (env : Redis.Env) (a : Redis.Args) (info : Redis.Info) (fmax : PyFloat.float),
     Redis.info_reply env = Replied info ->
     PyFloat.of_int (Redis.maxmemory info) = Some fmax ->
     PyFloat.of_string (numeric_prefix (Redis.maxmemory_human info)) = None ->
     (exists args,
        uncaught (run_process (Redis.main env a)) = Some (Error ValueError args)) /\
     printed (run_process (Redis.main env a)) = "" /\
     exit_code (run_process (Redis.main env a)) = 1) /\
  (forall (env : Redis.Env) (a : Redis.Args) (info : Redis.Info)
          (fmax v : PyFloat.float) (output : string),
     Redis.info_reply env = Replied info ->
     PyFloat.of_int (Redis.maxmemory info) = Some fmax ->
     PyFloat.of_string (numeric_prefix (Redis.maxmemory_human info)) = Some v ->
     Redis.keydb_cli_output env = Replied output ->
     (length (split_on " " output) < 3)%nat ->
     uncaught (run_process (Redis.main env a))
     = Some (Error IndexError ["list index out of range"]) /\
     printed (run_process (Redis.main env a)) = "" /\
     exit_code (run_process (Redis.main env a)) = 1) /\
  numeric_prefix "0" = "" /\
  PyFloat.of_string "" = None /\
  uncaught (run_process (Redis.main bare_env default_args))
  = Some (Error ValueError ["could not convert string to float: ''"]) /\
  exit_code (run_process (Redis.main bare_env default_args)) = 1.
Proof.
  split; [ | split; [ reflexivity | split; [ reflexivity | split; [ | split ] ] ] ].
  - intros env a c args w Hrun Hclass. rewrite cache_main_run, Hrun.
    unfold cache_outcome. rewrite Hclass. repeat split.
  - intros env a info fmax Hinfo Hmax Hv.
    rewrite cache_main_run, report_stats_run. cbn zeta. rewrite Hinfo.
    unfold Redis.check_memory_usage, Redis.get_memory_threshold_by_percentage,
      Redis.float_mul_int.
    rewrite Hmax. cbn [bind ret Monad_result].
    destruct (human_threshold_fails
                (Redis.resolve (Redis.max_memory_usage a)
                               (Redis.ARGS Redis.MAX_PERCENTUAL_MEMORY_USAGE))
                info Hv) as [args Hargs].
    rewrite Hargs. cbn. repeat split. eauto.
  - intros env a info fmax v output Hinfo Hmax Hv Hout Hshort.
    rewrite cache_main_run, report_stats_run. cbn zeta. rewrite Hinfo.
    rewrite (check_memory_usage_run info _ fmax v Hmax Hv).
    rewrite check_latency_run, Hout.
    unfold measured_latency, Redis.index.
    destruct (nth_error (split_on " " output) 2) eqn:Hnth.
    + assert (nth_error (split_on " " output) 2 <> None) as Hsome by congruence.
      apply nth_error_Some in Hsome. lia.
    + cbn. repeat split.
  - repeat split.
Qed.

Lemma C10_uncaught_errors_witness :
  Redis.info_reply short_env = Replied sample_info /\
  PyFloat.of_int (Redis.maxmemory sample_info) = Some (PyFloat.literal "3854733148") /\
  PyFloat.of_string (numeric_prefix (Redis.maxmemory_human sample_info))
  = Some (PyFloat.literal "3.59") /\
  Redis.keydb_cli_output short_env = Replied "0 1" /\
  (length (split_on " " "0 1") < 3)%nat /\
  exit_code (run_process (Redis.main short_env default_args)) = 1.
Proof.
  repeat (split; [ reflexivity | ]).
  split; [ cbn; lia | ].
  apply (proj1 (proj2 (proj2 (proj2 (proj2 C10_uncaught_errors))))
           short_env default_args sample_info
           (PyFloat.literal "3854733148") (PyFloat.literal "3.59") "0 1"
           eq_refl eq_refl eq_refl eq_refl).
  cbn; lia.
Defined.

(* ===================================================================== *)
(** ** Exit status of both probes *)
(* ===================================================================== *)

Lemma replica_verdict_val (z : Z) (message : string) :
  replica_verdict z = Val message -> z = 1 \/ z = 2.
Proof.
  unfold replica_verdict, Mongo.PRIMARY_INSTANCE, Mongo.SECONDARY_INSTANCE.
  destruct (Z.eqb_spec z 1); [ auto | ].
  destruct (Z.eqb_spec z 2); [ auto | discriminate ].
Qed.

Lemma replica_exit_status (srv : Mongo.Server) (a : Mongo.Args) :
  let reply := Mongo.replSetGetStatus srv (Mongo.user a) (Mongo.password a) in
  let o := run_process (Mongo.main srv a) in
  (exit_code o = 0 <-> reply = Replied 1 \/ reply = Replied 2) /\
  (forall message,
     fst (Mongo.report_instance_status srv (Mongo.user a) (Mongo.password a)
                                       initial_world) = Val message ->
     printed o = message ++ newline /\ exit_code o = 0) /\
  (forall c args,
     reply = Failed c args ->
     issubclass c ServerSelectionTimeoutError = true
     \/ issubclass c OperationFailure = true ->
     printed o = String.concat " " args ++ newline /\ exit_code o = 2) /\
  (forall z,
     reply = Replied z -> z <> 1 -> z <> 2 ->
     printed o = "Critical - Replica NOK!|replica_health=1;;0;;" ++ newline /\
     exit_code o = 2) /\
  calls o = [MongoCommand (Mongo.user a) (Mongo.password a) "replSetGetStatus"].
Proof.
  cbn zeta. rewrite replica_main_run, report_instance_status_run. cbn zeta.
  destruct (Mongo.replSetGetStatus srv (Mongo.user a) (Mongo.password a))
    as [z | c args].
  - destruct (replica_verdict z) as [message | e] eqn:Hverdict; cbn [fst].
    + destruct (replica_verdict_val z message Hverdict) as [-> | ->];
        (split; [ split; [ auto | reflexivity ] | ]);
        (split; [ intros m Hm; injection Hm as <-; split; reflexivity | ]);
        (split; [ discriminate | ]);
        (split; [ intros z Hz; injection Hz as <-; intros; contradiction | reflexivity ]).
    + destruct (replica_verdict_raises z e Hverdict) as (H1 & H2 & _).
      split; [ split; [ discriminate | intros [H | H]; injection H; contradiction ] | ].
      split; [ discriminate | ].
      split; [ discriminate | ].
      split; [ intros; split; reflexivity | reflexivity ].
  - cbn [fst].
    split.
    { unfold critical_outcome. destruct (caught_by_replica_main c); cbn;
        (split; [ discriminate | intros [H | H]; discriminate ]). }
    split; [ discriminate | ].
    split; [ | split; [ discriminate | destruct (caught_by_replica_main c); reflexivity ] ].
    intros c' args' Heq Hclass. injection Heq as <- <-.
    unfold caught_by_replica_main.
    destruct Hclass as [-> | ->]; [ | rewrite orb_true_r ]; split; reflexivity.
Qed.

Lemma cache_exit_status (env : Redis.Env) (a : Redis.Args) :
  let o := run_process (Redis.main env a) in
  (exit_code o = 0 <->
   exists info allowed latency,
     Redis.info_reply env = Replied info /\
     Redis.check_memory_usage info (memory_fraction a) = Val (true, allowed) /\
     fst (Redis.check_latency env (latency_limit a) initial_world) = Val (true, latency)) /\
  (forall info memory_healthy allowed latency_healthy latency,
     Redis.info_reply env = Replied info ->
     Redis.check_memory_usage info (memory_fraction a) = Val (memory_healthy, allowed) ->
     fst (Redis.check_latency env (latency_limit a) initial_world)
     = Val (latency_healthy, latency) ->
     printed o
     = Redis.format_message memory_healthy allowed latency_healthy (latency_limit a)
                            info latency
       ++ newline /\
     exit_code o = (if memory_healthy && latency_healthy then 0 else 2)) /\
  (forall c args,
     Redis.info_reply env = Failed c args ->
     issubclass c RedisError = true ->
     printed o = String.concat " " args ++ newline /\ exit_code o = 2) /\
  (calls o = [RedisInfo] \/ calls o = [RedisInfo; Popen ["keydb-cli"; "--latency"]]).
Proof.
  cbn zeta. rewrite cache_main_run, report_stats_run. cbn zeta.
  fold (memory_fraction a) (latency_limit a).
  set (fraction := memory_fraction a).
  set (limit := latency_limit a).
  rewrite (check_latency_any_world env limit initial_world (after_call RedisInfo initial_world)).
  destruct (Redis.info_reply env) as [info | c args].
  - destruct (Redis.check_memory_usage info fraction)
      as [[memory_healthy allowed] | e] eqn:Hmem.
    + destruct (Redis.check_latency env limit (after_call RedisInfo initial_world))
        as [[[latency_healthy latency] | e] w'] eqn:Hlat;
        rewrite check_latency_run in Hlat; injection Hlat as Hres <-; cbn [fst].
      * assert (forall i mh al lh la,
                  Replied info = Replied i ->
                  Redis.check_memory_usage i fraction = Val (mh, al) ->
                  @Val (bool * PyFloat.float) (latency_healthy, latency) = Val (lh, la) ->
                  mh = memory_healthy /\ al = allowed /\ lh = latency_healthy
                  /\ la = latency /\ i = info) as Hsame.
        { intros i mh al lh la Hi Hm Hl. injection Hi as <-. rewrite Hmem in Hm.
          injection Hm as <- <-. injection Hl as <- <-. auto. }
        destruct memory_healthy, latency_healthy; cbn [andb];
          rewrite ?cache_outcome_healthy, ?cache_outcome_unhealthy;
          cbn [exit_code printed calls stdout trace after_call initial_world app append].
        all: split;
          [ split;
            [ first [ discriminate | intros _; exists info, allowed, latency; auto ]
            | intros (i & al & la & Hi & Hm & Hl);
              destruct (Hsame i true al true la Hi Hm Hl) as (H1 & _ & H3 & _);
              first [ reflexivity | discriminate ] ]
          | ].
        all: split;
          [ intros i mh al lh la Hi Hm Hl;
            destruct (Hsame i mh al lh la Hi Hm Hl) as (-> & -> & -> & -> & ->);
            split; reflexivity
          | ].
        all: split; [ discriminate | right; reflexivity ].
      * assert (exists c args, e = Error c args) as (c & args & ->).
        { destruct (Redis.keydb_cli_output env) as [output | c args].
          - destruct (measured_latency output) as [latency | e'] eqn:Hm; [ discriminate | ].
            injection Hres as <-.
            destruct (measured_latency_raises output e' Hm) as [args [-> | ->]]; eauto.
          - injection Hres as <-. eauto. }
        destruct (cache_outcome_error c args
                    (after_call latency_run (after_call RedisInfo initial_world)))
          as [Hexit Hcalls].
        split; [ split; [ contradiction | ] | ].
        { intros (i & al & la & _ & _ & Hl). discriminate. }
        split; [ discriminate | ].
        split; [ discriminate | right; exact Hcalls ].
    + destruct (check_memory_usage_raises info fraction e Hmem) as [args Hargs].
      assert (exists c, e = Error c args) as [c ->] by (destruct Hargs; eauto).
      destruct (cache_outcome_error c args (after_call RedisInfo initial_world))
        as [Hexit Hcalls].
      split; [ split; [ contradiction | ] | ].
      { intros (i & al & la & Hi & Hm & _). injection Hi as <-. congruence. }
      split; [ intros i mh al lh la Hi Hm; injection Hi as <-; congruence | ].
      split; [ discriminate | left; exact Hcalls ].
  - destruct (cache_outcome_error c args (after_call RedisInfo initial_world))
      as [Hexit Hcalls].
    split; [ split; [ contradiction | ] | ].
    { intros (i & al & la & Hi & _). discriminate. }
    split; [ discriminate | ].
    split; [ | left; exact Hcalls ].
    intros c' args' Heq Hclass. injection Heq as <- <-.
    unfold cache_outcome. rewrite Hclass. split; reflexivity.
Qed.

(** C8. A probe exits with code 0, having printed the success message, exactly
    when every check it evaluated is healthy. An error of the collaborator
    that [main] names (a server selection timeout or an operation failure for
    the replica probe, a RedisError for the cache probe) and an unhealthy
    verdict all end the same way: the error's arguments are printed on
    standard output and the process exits with code 2. No collaborator is
    asked twice. *)
Theorem C8_exit_status_mapping :
  (forall (srv : Mongo.Server) (a : Mongo.Args),
     let reply := Mongo.replSetGetStatus srv (Mongo.user a) (Mongo.password a) in
     let o := run_process (Mongo.main srv a) in
     (exit_code o = 0 <-> reply = Replied 1 \/ reply = Replied 2) /\
     (forall message,
        fst (Mongo.report_instance_status srv (Mongo.user a) (Mongo.password a)
                                          initial_world) = Val message ->
        printed o = message ++ newline /\ exit_code o = Mongo.STATUS Mongo.OK) /\
     (forall c args,
        reply = Failed c args ->
        issubclass c ServerSelectionTimeoutError = true
        \/ issubclass c OperationFailure = true ->
        printed o = String.concat " " args ++ newline /\
        exit_code o = Mongo.STATUS Mongo.CRITICAL) /\
     (forall z,
        reply = Replied z -> z <> 1 -> z <> 2 ->
        printed o = "Critical - Replica NOK!|replica_health=1;;0;;" ++ newline /\
        exit_code o = Mongo.STATUS Mongo.CRITICAL) /\
     calls o = [MongoCommand (Mongo.user a) (Mongo.password a) "replSetGetStatus"]) /\
  (forall (env : Redis.Env) (a : Redis.Args),
     let o := run_process (Redis.main env a) in
     (exit_code o = 0 <->
      exists info allowed latency,
        Redis.info_reply env = Replied info /\
        Redis.check_memory_usage info (memory_fraction a) = Val (true, allowed) /\
        fst (Redis.check_latency env (latency_limit a) initial_world)
        = Val (true, latency)) /\
     (forall info memory_healthy allowed latency_healthy latency,
        Redis.info_reply env = Replied info ->
        Redis.check_memory_usage info (memory_fraction a) = Val (memory_healthy, allowed) ->
        fst (Redis.check_latency env (latency_limit a) initial_world)
        = Val (latency_healthy, latency) ->
        printed o
        = Redis.format_message memory_healthy allowed latency_healthy (latency_limit a)
                               info latency
          ++ newline /\
        exit_code o
        = (if memory_healthy && latency_healthy
           then Redis.STATUS Redis.OK else Redis.STATUS Redis.CRITICAL)) /\
     (forall c args,
        Redis.info_reply env = Failed c args ->
        issubclass c RedisError = true ->
        printed o = String.concat " " args ++ newline /\
        exit_code o = Redis.STATUS Redis.CRITICAL) /\
     (calls o = [RedisInfo] \/ calls o = [RedisInfo; Popen ["keydb-cli"; "--latency"]])).
Proof.
  split.
  - intros srv a. exact (replica_exit_status srv a).
  - intros env a. exact (cache_exit_status env a).
Qed.

Lemma C8_exit_status_mapping_witness :
  (Mongo.replSetGetStatus unreachable_server (Mongo.user root_args) (Mongo.password root_args)
   = Failed ServerSelectionTimeoutError ["localhost:27017: timed out"] /\
   (issubclass ServerSelectionTimeoutError ServerSelectionTimeoutError = true
    \/ issubclass ServerSelectionTimeoutError OperationFailure = true) /\
   printed (run_process (Mongo.main unreachable_server root_args))
   = String.concat " " ["localhost:27017: timed out"] ++ newline /\
   exit_code (run_process (Mongo.main unreachable_server root_args)) = 2) /\
  (Redis.info_reply down_env
   = Failed RedisConnectionError ["Error 111 connecting to localhost:6379."] /\
   issubclass RedisConnectionError RedisError = true /\
   printed (run_process (Redis.main down_env default_args))
   = String.concat " " ["Error 111 connecting to localhost:6379."] ++ newline /\
   exit_code (run_process (Redis.main down_env default_args)) = 2).
Proof.
  split.
  - split; [ reflexivity | split; [ left; reflexivity | ] ].
    apply (proj1 (proj2 (proj2 (proj1 C8_exit_status_mapping unreachable_server root_args)))
             ServerSelectionTimeoutError ["localhost:27017: timed out"] eq_refl).
    left; reflexivity.
  - split; [ reflexivity | split; [ reflexivity | ] ].
    apply (proj1 (proj2 (proj2 (proj2 C8_exit_status_mapping down_env default_args)))
             RedisConnectionError ["Error 111 connecting to localhost:6379."] eq_refl eq_refl).
Defined.

(* ===================================================================== *)
(** ** Further properties of the replica probe *)
(* ===================================================================== *)

(** X1. The three [except] clauses of the replica probe are all it catches:
    when the collaborator fails with an error that is an instance of neither
    ServerSelectionTimeoutError nor OperationFailure nor ReplicaUnhealthy, the
    error leaves [main], nothing is printed and the exit status is 1. The
    parents of ServerSelectionTimeoutError (AutoReconnect, ConnectionFailure,
    PyMongoError) are such errors. *)
Theorem replica_unnamed_error_escapes :
  forall (srv : Mongo.Server) (a : Mongo.Args) (c : error_class) (args : list string),
    Mongo.replSetGetStatus srv (Mongo.user a) (Mongo.password a) = Failed c args ->
    issubclass c ServerSelectionTimeoutError = false ->
    issubclass c OperationFailure = false ->
    issubclass c ReplicaUnhealthy = false ->
    (uncaught (run_process (Mongo.main srv a)) = Some (Error c args) /\
     printed (run_process (Mongo.main srv a)) = "" /\
     exit_code (run_process (Mongo.main srv a)) = 1) /\
    (forall parent,
       In parent [AutoReconnect; ConnectionFailure; PyMongoError] ->
       issubclass parent ServerSelectionTimeoutError = false /\
       issubclass parent OperationFailure = false /\
       issubclass parent ReplicaUnhealthy = false).
Proof.
  intros srv a c args Hreply H1 H2 H3. split.
  - rewrite replica_main_run, Hreply. cbn zeta.
    unfold caught_by_replica_main. rewrite H1, H2, H3. repeat split.
  - intros parent [<- | [<- | [<- | []]]]; repeat split.
Qed.

Lemma replica_unnamed_error_escapes_witness :
  Mongo.replSetGetStatus reconnect_server (Mongo.user root_args) (Mongo.password root_args)
  = Failed AutoReconnect ["connection closed"] /\
  issubclass AutoReconnect ServerSelectionTimeoutError = false /\
  issubclass AutoReconnect OperationFailure = false /\
  issubclass AutoReconnect ReplicaUnhealthy = false /\
  exit_code (run_process (Mongo.main reconnect_server root_args)) = 1.
Proof.
  repeat (split; [ reflexivity | ]).
  apply (proj1 (replica_unnamed_error_escapes reconnect_server root_args AutoReconnect
                  ["connection closed"] eq_refl eq_refl eq_refl eq_refl)).
Defined.

(** X2. Whatever state the service reports, the line of the replica probe is
    a head ("Ok - Replica Primary" for 1, "Ok - Replica Secondary" for 2,
    "Critical - Replica NOK!" otherwise) followed by the same performance
    data "|replica_health=1;;0;;": the value 1 is printed for an unhealthy
    replica too. The exit code is 0 for the states 1 and 2 and 2 otherwise. *)
Theorem replica_performance_data_is_constant :
  forall (srv : Mongo.Server) (a : Mongo.Args) (z : Z),
    Mongo.replSetGetStatus srv (Mongo.user a) (Mongo.password a) = Replied z ->
    printed (run_process (Mongo.main srv a))
    = replica_head z ++ "|replica_health=1;;0;;" ++ newline /\
    exit_code (run_process (Mongo.main srv a))
    = (if (z =? Mongo.PRIMARY_INSTANCE) || (z =? Mongo.SECONDARY_INSTANCE)
       then Mongo.STATUS Mongo.OK else Mongo.STATUS Mongo.CRITICAL).
Proof.
  intros srv a z Hreply. rewrite replica_main_run, Hreply. cbn zeta.
  unfold replica_verdict, replica_head, Mongo.PRIMARY_INSTANCE, Mongo.SECONDARY_INSTANCE.
  destruct (z =? 1); [ split; reflexivity | ].
  destruct (z =? 2); split; reflexivity.
Qed.

Lemma replica_performance_data_is_constant_witness :
  Mongo.replSetGetStatus secondary_server (Mongo.user root_args) (Mongo.password root_args)
  = Replied 2 /\
  printed (run_process (Mongo.main secondary_server root_args))
  = "Ok - Replica Secondary|replica_health=1;;0;;" ++ newline.
Proof.
  split; [ reflexivity | ].
  apply (proj1 (replica_performance_data_is_constant secondary_server root_args 2 eq_refl)).
Defined.

Lemma replica_parsed_classification (srv : Mongo.Server) (a : Mongo.Args) :
  (exit_code (run_process (Mongo.main srv a)) = 0
   \/ exit_code (run_process (Mongo.main srv a)) = 1
   \/ exit_code (run_process (Mongo.main srv a)) = 2) /\
  (exit_code (run_process (Mongo.main srv a)) = 1 <->
   uncaught (run_process (Mongo.main srv a)) <> None) /\
  (uncaught (run_process (Mongo.main srv a)) <> None ->
   printed (run_process (Mongo.main srv a)) = "") /\
  (uncaught (run_process (Mongo.main srv a)) = None ->
   exists text, printed (run_process (Mongo.main srv a)) = text ++ newline).
Proof.
  rewrite replica_main_run. cbn zeta.
  assert (forall text cs code,
            code = 0 \/ code = 2 ->
            let o := mkOutcome (text ++ newline) code None cs in
            (exit_code o = 0 \/ exit_code o = 1 \/ exit_code o = 2) /\
            (exit_code o = 1 <-> uncaught o <> None) /\
            (uncaught o <> None -> printed o = "") /\
            (uncaught o = None -> exists t, printed o = t ++ newline)) as Hprinted.
  { intros text cs code Hcode. cbn.
    split; [ destruct Hcode; auto | ].
    split; [ split; [ destruct Hcode; subst; discriminate
                    | intros H; now contradiction H ] | ].
    split; [ intros H; now contradiction H | intros _; eauto ]. }
  destruct (Mongo.replSetGetStatus srv (Mongo.user a) (Mongo.password a)) as [z | c args].
  - destruct (replica_verdict z) as [message | e].
    + apply Hprinted. auto.
    + apply Hprinted. auto.
  - destruct (caught_by_replica_main c).
    + apply Hprinted. auto.
    + cbn. split; [ auto | ].
      split; [ split; [ discriminate | reflexivity ] | ].
      split; [ reflexivity | discriminate ].
Qed.

Lemma replica_main_argv_parsed (srv : Mongo.Server) (a : Mongo.Args) :
  Mongo.main_argv srv (Parsed a) = Mongo.main srv a.
Proof. reflexivity. Qed.

(** X3. Every run of the replica probe, from the command line on, ends with
    exit status 0, 1 or 2. The status is 1 exactly when an error left [main],
    and then nothing was printed. When argparse rejects the command line the
    status is 2, nothing is printed on standard output and the service is not
    asked; when help is requested the help text is all that is printed, the
    status is 0 and the service is not asked. When the arguments are parsed
    the run is the one of [main] from the parsed arguments, and unless an
    error left [main] exactly one [print] happened: the output is a text
    followed by a newline. *)
Theorem replica_outcome_classification :
  forall (srv : Mongo.Server) (argv : command_line Mongo.Args),
    (exit_code (run_process (Mongo.main_argv srv argv)) = 0
     \/ exit_code (run_process (Mongo.main_argv srv argv)) = 1
     \/ exit_code (run_process (Mongo.main_argv srv argv)) = 2) /\
    (exit_code (run_process (Mongo.main_argv srv argv)) = 1 <->
     uncaught (run_process (Mongo.main_argv srv argv)) <> None) /\
    (uncaught (run_process (Mongo.main_argv srv argv)) <> None ->
     printed (run_process (Mongo.main_argv srv argv)) = "") /\
    (argv = Rejected ->
     run_process (Mongo.main_argv srv argv) = mkOutcome "" 2 None []) /\
    (forall help,
       argv = HelpRequested help ->
       run_process (Mongo.main_argv srv argv) = mkOutcome help 0 None []) /\
    (forall a,
       argv = Parsed a ->
       run_process (Mongo.main_argv srv argv) = run_process (Mongo.main srv a) /\
       (uncaught (run_process (Mongo.main_argv srv argv)) = None ->
        exists text,
          printed (run_process (Mongo.main_argv srv argv)) = text ++ newline)).
Proof.
  intros srv [a | help | ].
  - rewrite replica_main_argv_parsed.
    destruct (replica_parsed_classification srv a) as (H1 & H2 & H3 & H4).
    split; [ exact H1 | ].
    split; [ exact H2 | ].
    split; [ exact H3 | ].
    split; [ discriminate | ].
    split; [ discriminate | ].
    intros a' Ha. injection Ha as <-. split; [ reflexivity | exact H4 ].
  - cbn.
    split; [ auto | ].
    split; [ split; [ discriminate | intros H; now contradiction H ] | ].
    split; [ intros H; now contradiction H | ].
    split; [ discriminate | ].
    split; [ intros help' Hh; injection Hh as <-; reflexivity | discriminate ].
  - cbn.
    split; [ auto | ].
    split; [ split; [ discriminate | intros H; now contradiction H ] | ].
    split; [ intros H; now contradiction H | ].
    split; [ reflexivity | ].
    split; discriminate.
Qed.

Lemma report_stats_frame (env : Redis.Env) (ml mm : option PyFloat.float) (w : World) :
  stdout (snd (Redis.report_stats env ml mm w)) = stdout w /\
  (trace (snd (Redis.report_stats env ml mm w)) = (trace w ++ [RedisInfo])%list
   \/ trace (snd (Redis.report_stats env ml mm w))
      = (trace w ++ [RedisInfo; Popen ["keydb-cli"; "--latency"]])%list) /\
  (forall code, fst (Redis.report_stats env ml mm w) <> Raise (SystemExit code)).
Proof.
  rewrite report_stats_run. cbn zeta.
  destruct (Redis.info_reply env) as [info | c args].
  + destruct (Redis.check_memory_usage info _) as [[memory_healthy allowed] | e] eqn:Hmem.
    * rewrite check_latency_run.
      destruct (Redis.keydb_cli_output env) as [output | c args].
      -- destruct (measured_latency output) as [latency | e] eqn:Hlat.
         ++ cbn [fst snd after_call stdout trace].
            rewrite <- app_assoc.
            split; [ reflexivity | split; [ right; reflexivity | ] ].
            intros code. destruct (memory_healthy && _); discriminate.
         ++ cbn [fst snd after_call stdout trace]. rewrite <- app_assoc.
            split; [ reflexivity | split; [ right; reflexivity | ] ].
            intros code H.
            destruct (measured_latency_raises output e Hlat) as [args [-> | ->]];
              discriminate.
      -- cbn [fst snd after_call stdout trace]. rewrite <- app_assoc.
         split; [ reflexivity | split; [ right; reflexivity | discriminate ] ].
    * cbn [fst snd after_call stdout trace].
      split; [ reflexivity | split; [ left; reflexivity | ] ].
      intros code H.
      destruct (check_memory_usage_raises info _ e Hmem) as [args [-> | ->]];
        discriminate.
  + cbn [fst snd after_call stdout trace].
    split; [ reflexivity | split; [ left; reflexivity | discriminate ] ].
Qed.

(** X13. Only [main] prints. [report_instance_status] leaves standard output
    as it is and asks the service exactly once, with the credentials it was
    given; [report_stats] leaves standard output as it is, asks the cache
    server once and runs the latency tool at most once, after that; neither
    raises SystemExit. *)
Theorem reports_never_print :
  (forall (srv : Mongo.Server) (user pass : string) (w : World),
     stdout (snd (Mongo.report_instance_status srv user pass w)) = stdout w /\
     trace (snd (Mongo.report_instance_status srv user pass w))
     = (trace w ++ [MongoCommand user pass "replSetGetStatus"])%list /\
     (forall code,
        fst (Mongo.report_instance_status srv user pass w) <> Raise (SystemExit code))) /\
  (forall (env : Redis.Env) (ml mm : option PyFloat.float) (w : World),
     stdout (snd (Redis.report_stats env ml mm w)) = stdout w /\
     (trace (snd (Redis.report_stats env ml mm w)) = (trace w ++ [RedisInfo])%list
      \/ trace (snd (Redis.report_stats env ml mm w))
         = (trace w ++ [RedisInfo; Popen ["keydb-cli"; "--latency"]])%list) /\
     (forall code, fst (Redis.report_stats env ml mm w) <> Raise (SystemExit code))).
Proof.
  split.
  - intros srv user pass w. rewrite report_instance_status_run. cbn [fst snd].
    repeat split.
    intros code. destruct (Mongo.replSetGetStatus srv user pass) as [z | c args];
      [ | discriminate ].
    intros H. destruct (replica_verdict_raises z _ H) as (_ & _ & He). discriminate.
  - intros env ml mm w. apply report_stats_frame.
Qed.

(* ===================================================================== *)
(** ** Further properties of the cache probe *)
(* ===================================================================== *)

Lemma cache_outcome_calls (r : result string) (w : World) :
  calls (cache_outcome (r, w)) = trace w.
Proof.
  destruct r as [message | [c args | code]]; unfold cache_outcome;
    [ reflexivity | | reflexivity ].
  destruct (issubclass c RedisError); reflexivity.
Qed.

Lemma cache_parsed_classification (env : Redis.Env) (a : Redis.Args) :
  (exit_code (run_process (Redis.main env a)) = 0
   \/ exit_code (run_process (Redis.main env a)) = 1
   \/ exit_code (run_process (Redis.main env a)) = 2) /\
  (exit_code (run_process (Redis.main env a)) = 1 <->
   uncaught (run_process (Redis.main env a)) <> None) /\
  (uncaught (run_process (Redis.main env a)) <> None ->
   printed (run_process (Redis.main env a)) = "") /\
  (uncaught (run_process (Redis.main env a)) = None ->
   exists text, printed (run_process (Redis.main env a)) = text ++ newline).
Proof.
  rewrite cache_main_run.
  destruct (report_stats_frame env (Redis.max_latency a) (Redis.max_memory_usage a)
              initial_world) as (Hout & _ & Hexit).
  destruct (Redis.report_stats env _ _ initial_world) as [r w].
  cbn [fst snd stdout initial_world] in Hout, Hexit.
  destruct r as [message | [c args | code]].
  - cbn. rewrite Hout. cbn.
    split; [ auto | ].
    split; [ split; [ discriminate | intros H; now contradiction H ] | ].
    split; [ intros H; now contradiction H | intros _; eauto ].
  - unfold cache_outcome. rewrite Hout. destruct (issubclass c RedisError); cbn.
    + split; [ auto | ].
      split; [ split; [ discriminate | intros H; now contradiction H ] | ].
      split; [ intros H; now contradiction H | intros _; eauto ].
    + split; [ auto | ].
      split; [ split; [ discriminate | reflexivity ] | ].
      split; [ reflexivity | discriminate ].
  - destruct (Hexit code eq_refl).
Qed.

Lemma cache_main_argv_parsed (env : Redis.Env) (a : Redis.Args) :
  Redis.main_argv env (Parsed a) = Redis.main env a.
Proof. reflexivity. Qed.

(** X4. Every run of the cache probe, from the command line on, ends with
    exit status 0, 1 or 2. The status is 1 exactly when an error left [main],
    and then nothing was printed. When argparse rejects the command line (a
    threshold that is no float, an unknown option) the status is 2, nothing
    is printed on standard output, and neither the server is asked nor the
    latency tool run; when help is requested the help text is all that is
    printed, the status is 0, and neither is contacted. When the arguments are
    parsed the run is the one of [main] from the parsed arguments, and unless
    an error left [main] exactly one [print] happened: the output is a text
    followed by a newline. *)
Theorem cache_outcome_classification :
  forall (env : Redis.Env) (argv : command_line Redis.Args),
    (exit_code (run_process (Redis.main_argv env argv)) = 0
     \/ exit_code (run_process (Redis.main_argv env argv)) = 1
     \/ exit_code (run_process (Redis.main_argv env argv)) = 2) /\
    (exit_code (run_process (Redis.main_argv env argv)) = 1 <->
     uncaught (run_process (Redis.main_argv env argv)) <> None) /\
    (uncaught (run_process (Redis.main_argv env argv)) <> None ->
     printed (run_process (Redis.main_argv env argv)) = "") /\
    (argv = Rejected ->
     run_process (Redis.main_argv env argv) = mkOutcome "" 2 None []) /\
    (forall help,
       argv = HelpRequested help ->
       run_process (Redis.main_argv env argv) = mkOutcome help 0 None []) /\
    (forall a,
       argv = Parsed a ->
       run_process (Redis.main_argv env argv) = run_process (Redis.main env a) /\
       (uncaught (run_process (Redis.main_argv env argv)) = None ->
        exists text,
          printed (run_process (Redis.main_argv env argv)) = text ++ newline)).
Proof.
  intros env [a | help | ].
  - rewrite cache_main_argv_parsed.
    destruct (cache_parsed_classification env a) as (H1 & H2 & H3 & H4).
    split; [ exact H1 | ].
    split; [ exact H2 | ].
    split; [ exact H3 | ].
    split; [ discriminate | ].
    split; [ discriminate | ].
    intros a' Ha. injection Ha as <-. split; [ reflexivity | exact H4 ].
  - cbn.
    split; [ auto | ].
    split; [ split; [ discriminate | intros H; now contradiction H ] | ].
    split; [ intros H; now contradiction H | ].
    split; [ discriminate | ].
    split; [ intros help' Hh; injection Hh as <-; reflexivity | discriminate ].
  - cbn.
    split; [ auto | ].
    split; [ split; [ discriminate | intros H; now contradiction H ] | ].
    split; [ intros H; now contradiction H | ].
    split; [ reflexivity | ].
    split; discriminate.
Qed.

(** X5. The latency tool is run exactly when the server answered INFO and the
    memory check returned a verdict, whatever the verdict: an unhealthy memory
    check does not spare the latency measurement, and a failed INFO or a
    memory check that raised ends the run before the tool is started. *)
Theorem latency_tool_runs_iff_memory_checked :
  forall (env : Redis.Env) (a : Redis.Args),
    (calls (run_process (Redis.main env a)) = [RedisInfo; Popen ["keydb-cli"; "--latency"]]
     <-> exists info memory_healthy allowed,
           Redis.info_reply env = Replied info /\
           Redis.check_memory_usage info (memory_fraction a)
           = Val (memory_healthy, allowed)) /\
    (calls (run_process (Redis.main env a)) = [RedisInfo]
     <-> ~ exists info memory_healthy allowed,
             Redis.info_reply env = Replied info /\
             Redis.check_memory_usage info (memory_fraction a)
             = Val (memory_healthy, allowed)).
Proof.
  intros env a. rewrite cache_main_run, report_stats_run. cbn zeta.
  fold (memory_fraction a) (latency_limit a).
  destruct (Redis.info_reply env) as [info | c args].
  - destruct (Redis.check_memory_usage info (memory_fraction a))
      as [[memory_healthy allowed] | e] eqn:Hmem.
    + rewrite check_latency_run.
      assert (forall r : result string,
                calls (cache_outcome
                         (r, after_call latency_run (after_call RedisInfo initial_world)))
                = [RedisInfo; Popen ["keydb-cli"; "--latency"]]) as Hcalls
        by (intros r; now rewrite cache_outcome_calls).
      destruct (match Redis.keydb_cli_output env with
                | Replied _ => _ | Failed _ _ => _ end)
        as [[latency_healthy latency] | e]; rewrite Hcalls.
      all: split;
        [ split; [ intros _; exists info, memory_healthy, allowed; auto | reflexivity ]
        | split; [ discriminate
                 | intros H; contradiction H;
                   exists info, memory_healthy, allowed; auto ] ].
    + rewrite cache_outcome_calls. cbn [trace after_call initial_world app].
      split; [ split; [ discriminate | ] | split; [ | reflexivity ] ].
      * intros (i & mh & al & Hi & Hm). injection Hi as <-. congruence.
      * intros _ (i & mh & al & Hi & Hm). injection Hi as <-. congruence.
  - rewrite cache_outcome_calls. cbn [trace after_call initial_world app].
    split; [ split; [ discriminate | ] | split; [ | reflexivity ] ].
    + intros (i & mh & al & Hi & _). discriminate.
    + intros _ (i & mh & al & Hi & _). discriminate.
Qed.

(** X6. No run of the cache probe works with a zero threshold: a zero given
    on the command line is replaced by the default like a missing flag, so
    the effective memory fraction and latency limit are never zero and a run
    with zero flags is the run without flags. *)
Theorem thresholds_are_never_zero :
  (forall a : Redis.Args,
     PyFloat.truthy (memory_fraction a) = true /\
     PyFloat.truthy (latency_limit a) = true) /\
  (forall (env : Redis.Env) (s1 s2 : bool),
     run_process (Redis.main env (Redis.mkArgs (Some (S754_zero s1)) (Some (S754_zero s2))))
     = run_process (Redis.main env (Redis.mkArgs None None))).
Proof.
  split.
  - intros [mm ml]. unfold memory_fraction, latency_limit, Redis.resolve.
    cbn [Redis.max_memory_usage Redis.max_latency]. split.
    + destruct mm as [x | ]; [ | reflexivity ].
      destruct (PyFloat.truthy x) eqn:Hx; cbn [negb]; [ exact Hx | reflexivity ].
    + destruct ml as [x | ]; [ | reflexivity ].
      destruct (PyFloat.truthy x) eqn:Hx; cbn [negb]; [ exact Hx | reflexivity ].
  - intros env s1 s2. rewrite !cache_main_run, !report_stats_run. reflexivity.
Qed.

(* ===================================================================== *)
(** ** Thresholds at their edges *)
(* ===================================================================== *)

Lemma mul_nan_r (x : PyFloat.float) : PyFloat.mul x PyFloat.nan = PyFloat.nan.
Proof. destruct x; reflexivity. Qed.

Lemma gtb_nan_r (x : PyFloat.float) : PyFloat.gtb x PyFloat.nan = false.
Proof. reflexivity. Qed.

Lemma gtb_irrefl (x : PyFloat.float) : PyFloat.gtb x x = false.
Proof.
  unfold PyFloat.gtb, SFltb. destruct x as [s | s | | s m e]; cbn.
  - reflexivity.
  - destruct s; reflexivity.
  - reflexivity.
  - rewrite Z.compare_refl, Pos.compare_cont_refl. destruct s; reflexivity.
Qed.

Lemma compare_gt_monotone (x x' y : Z) :
  x <= x' -> (x ?= y) = Gt -> (x' ?= y) = Gt.
Proof. rewrite !Z.compare_gt_iff. lia. Qed.

Lemma int_gtb_monotone (z z' : Z) (f : PyFloat.float) :
  z <= z' -> PyFloat.int_gtb z f = true -> PyFloat.int_gtb z' f = true.
Proof.
  intros Hle. unfold PyFloat.int_gtb, PyFloat.compare_int.
  destruct f as [s | s | | s m e]; try (intros H; exact H).
  - destruct (z ?= 0) eqn:Hc; try discriminate.
    now rewrite (compare_gt_monotone z z' 0 Hle Hc).
  - destruct (0 <=? e).
    + destruct (z ?= _) eqn:Hc; try discriminate.
      now rewrite (compare_gt_monotone z z' _ Hle Hc).
    + assert (0 <= 2 ^ (- e)) as Hpow by (apply Z.pow_nonneg; lia).
      destruct (z * 2 ^ (- e) ?= _) eqn:Hc; try discriminate.
      rewrite (compare_gt_monotone (z * 2 ^ (- e)) (z' * 2 ^ (- e)) _); [ reflexivity | | exact Hc ].
      apply Z.mul_le_mono_nonneg_r; assumption.
Qed.

Lemma check_memory_usage_val (info : Redis.Info) (fraction : PyFloat.float)
    (healthy : bool) (allowed : string) :
  Redis.check_memory_usage info fraction = Val (healthy, allowed) ->
  exists fmax v,
    PyFloat.of_int (Redis.maxmemory info) = Some fmax /\
    PyFloat.of_string (numeric_prefix (Redis.maxmemory_human info)) = Some v.
Proof.
  unfold Redis.check_memory_usage, Redis.get_memory_threshold_by_percentage,
    Redis.get_human_memory_threshold_by_percentage, Redis.float_mul_int,
    Redis.float_of_str.
  fold (numeric_prefix (Redis.maxmemory_human info)).
  destruct (PyFloat.of_int (Redis.maxmemory info)) as [fmax | ]; [ | discriminate ].
  destruct (PyFloat.of_string (numeric_prefix _)) as [v | ]; [ | discriminate ].
  intros _. eauto.
Qed.

(** X7. A NaN threshold switches its check off. When the telemetry is
    obtained, a memory fraction of NaN makes the memory check healthy for every
    used memory (and the limit is shown as "nan" with its unit), a latency
    limit of NaN makes the latency check healthy for every latency, and with
    both the run exits with 0. *)
Theorem nan_thresholds_never_alert :
  forall (env : Redis.Env) (info : Redis.Info) (fmax v latency : PyFloat.float)
         (output token : string),
    Redis.info_reply env = Replied info ->
    PyFloat.of_int (Redis.maxmemory info) = Some fmax ->
    PyFloat.of_string (numeric_prefix (Redis.maxmemory_human info)) = Some v ->
    Redis.keydb_cli_output env = Replied output ->
    nth_error (split_on " " output) 2 = Some token ->
    PyFloat.of_string token = Some latency ->
    (forall ml,
       Redis.check_memory_usage info (memory_fraction (Redis.mkArgs (Some PyFloat.nan) ml))
       = Val (true, "nan" ++ unit_suffix (Redis.maxmemory_human info) ++ "B")) /\
    (forall mm w,
       fst (Redis.check_latency env (latency_limit (Redis.mkArgs mm (Some PyFloat.nan))) w)
       = Val (true, latency)) /\
    exit_code (run_process
                 (Redis.main env (Redis.mkArgs (Some PyFloat.nan) (Some PyFloat.nan)))) = 0 /\
    uncaught (run_process
                (Redis.main env (Redis.mkArgs (Some PyFloat.nan) (Some PyFloat.nan)))) = None.
Proof.
  intros env info fmax v latency output token Hinfo Hmax Hv Hout Htoken Hlatency.
  split; [ | split ].
  - intros ml. change (memory_fraction (Redis.mkArgs (Some PyFloat.nan) ml)) with PyFloat.nan.
    rewrite (check_memory_usage_run info PyFloat.nan fmax v Hmax Hv).
    rewrite mul_nan_r. reflexivity.
  - intros mm w. change (latency_limit (Redis.mkArgs mm (Some PyFloat.nan))) with PyFloat.nan.
    rewrite check_latency_run, Hout.
    rewrite (measured_latency_run output token latency Htoken Hlatency).
    rewrite gtb_nan_r. reflexivity.
  - rewrite cache_main_run.
    rewrite (cache_run env _ info fmax v latency output token
               Hinfo Hmax Hv Hout Htoken Hlatency).
    cbn zeta.
    change (memory_fraction (Redis.mkArgs (Some PyFloat.nan) (Some PyFloat.nan)))
      with PyFloat.nan.
    change (latency_limit (Redis.mkArgs (Some PyFloat.nan) (Some PyFloat.nan)))
      with PyFloat.nan.
    rewrite gtb_nan_r. cbn [negb andb PyFloat.mul SFmul PyFloat.nan PyFloat.int_gtb
      PyFloat.compare_int].
    rewrite cache_outcome_healthy. split; reflexivity.
Qed.

Lemma nan_thresholds_never_alert_witness :
  Redis.info_reply slow_env = Replied sample_info /\
  PyFloat.of_int (Redis.maxmemory sample_info) = Some (PyFloat.literal "3854733148") /\
  PyFloat.of_string (numeric_prefix (Redis.maxmemory_human sample_info))
  = Some (PyFloat.literal "3.59") /\
  Redis.keydb_cli_output slow_env = Replied ("0 1 25.0 1234" ++ newline) /\
  nth_error (split_on " " ("0 1 25.0 1234" ++ newline)) 2 = Some "25.0" /\
  PyFloat.of_string "25.0" = Some (PyFloat.literal "25.0") /\
  exit_code (run_process (Redis.main slow_env nan_args)) = 0.
Proof.
  repeat (split; [ reflexivity | ]).
  apply (nan_thresholds_never_alert slow_env sample_info
           (PyFloat.literal "3854733148") (PyFloat.literal "3.59") (PyFloat.literal "25.0")
           ("0 1 25.0 1234" ++ newline) "25.0" eq_refl eq_refl eq_refl eq_refl eq_refl eq_refl).
Defined.

(** X8. Both thresholds are inclusive. A measured latency equal to the limit
    is healthy, and a used memory that compares equal to the allowed amount is
    healthy: 95 bytes used of 100 with a fraction of 0.95 pass, 96 do not. *)
Theorem thresholds_are_inclusive :
  (forall (env : Redis.Env) (latency : PyFloat.float) (output token : string) (w : World),
     Redis.keydb_cli_output env = Replied output ->
     nth_error (split_on " " output) 2 = Some token ->
     PyFloat.of_string token = Some latency ->
     fst (Redis.check_latency env latency w) = Val (true, latency)) /\
  (forall (info : Redis.Info) (fraction fmax v : PyFloat.float),
     PyFloat.of_int (Redis.maxmemory info) = Some fmax ->
     PyFloat.of_string (numeric_prefix (Redis.maxmemory_human info)) = Some v ->
     PyFloat.compare_int (Redis.used_memory info) (PyFloat.mul fraction fmax) = Some Eq ->
     exists allowed, Redis.check_memory_usage info fraction = Val (true, allowed)) /\
  Redis.check_memory_usage exact_info (PyFloat.literal "0.95") = Val (true, "95.00BB") /\
  Redis.check_memory_usage busy_info (PyFloat.literal "0.95") = Val (false, "95.00BB").
Proof.
  split; [ | split; [ | split; reflexivity ] ].
  - intros env latency output token w Hout Htoken Hlatency.
    rewrite check_latency_run, Hout.
    rewrite (measured_latency_run output token latency Htoken Hlatency).
    rewrite gtb_irrefl. reflexivity.
  - intros info fraction fmax v Hmax Hv Heq.
    rewrite (check_memory_usage_run info fraction fmax v Hmax Hv).
    unfold PyFloat.int_gtb. rewrite Heq. eauto.
Qed.

Lemma thresholds_are_inclusive_witness :
  PyFloat.of_int (Redis.maxmemory exact_info) = Some (PyFloat.literal "100") /\
  PyFloat.of_string (numeric_prefix (Redis.maxmemory_human exact_info))
  = Some (PyFloat.literal "100") /\
  PyFloat.compare_int (Redis.used_memory exact_info)
    (PyFloat.mul (PyFloat.literal "0.95") (PyFloat.literal "100")) = Some Eq /\
  exists allowed,
    Redis.check_memory_usage exact_info (PyFloat.literal "0.95") = Val (true, allowed).
Proof.
  repeat (split; [ reflexivity | ]).
  apply (proj1 (proj2 thresholds_are_inclusive) exact_info (PyFloat.literal "0.95")
           (PyFloat.literal "100") (PyFloat.literal "100") eq_refl eq_refl eq_refl).
Defined.

(** X9. The memory verdict is monotone in the used memory: for the same
    limit and fraction, if a used amount is healthy then every smaller used
    amount is healthy too, with the same human-readable limit. *)
Theorem memory_verdict_is_monotone :
  forall (info info' : Redis.Info) (fraction : PyFloat.float) (allowed : string),
    Redis.maxmemory info = Redis.maxmemory info' ->
    Redis.maxmemory_human info = Redis.maxmemory_human info' ->
    Redis.used_memory info <= Redis.used_memory info' ->
    Redis.check_memory_usage info' fraction = Val (true, allowed) ->
    Redis.check_memory_usage info fraction = Val (true, allowed).
Proof.
  intros info info' fraction allowed Hmax Hhuman Hle Hrun.
  destruct (check_memory_usage_val info' fraction true allowed Hrun) as (fmax & v & Hf & Hv).
  rewrite (check_memory_usage_run info' fraction fmax v Hf Hv) in Hrun.
  rewrite <- Hmax in Hf. rewrite <- Hhuman in Hv, Hrun.
  rewrite (check_memory_usage_run info fraction fmax v Hf Hv).
  injection Hrun as Hflag <-.
  destruct (PyFloat.int_gtb (Redis.used_memory info) (PyFloat.mul fraction fmax)) eqn:Hgt;
    [ | reflexivity ].
  rewrite (int_gtb_monotone _ _ _ Hle Hgt) in Hflag. discriminate.
Qed.

Lemma memory_verdict_is_monotone_witness :
  Redis.maxmemory (Redis.mkInfo 10 "10B" 100 "100B") = Redis.maxmemory exact_info /\
  Redis.maxmemory_human (Redis.mkInfo 10 "10B" 100 "100B") = Redis.maxmemory_human exact_info /\
  Redis.used_memory (Redis.mkInfo 10 "10B" 100 "100B") <= Redis.used_memory exact_info /\
  Redis.check_memory_usage exact_info (PyFloat.literal "0.95") = Val (true, "95.00BB") /\
  Redis.check_memory_usage (Redis.mkInfo 10 "10B" 100 "100B") (PyFloat.literal "0.95")
  = Val (true, "95.00BB").
Proof.
  split; [ reflexivity | split; [ reflexivity | split; [ cbn; lia | split; [ reflexivity | ] ] ] ].
  apply (memory_verdict_is_monotone (Redis.mkInfo 10 "10B" 100 "100B") exact_info
           (PyFloat.literal "0.95") "95.00BB" eq_refl eq_refl);
    [ cbn; lia | reflexivity ].
Defined.

(* ===================================================================== *)
(** ** The fields of the latency output *)
(* ===================================================================== *)

Lemma length_split_on (sep : ascii) (s : string) :
  length (split_on sep s) = S (count_char sep s).
Proof.
  induction s as [ | c r IH ]; cbn [split_on count_char]; [ reflexivity | ].
  destruct (Ascii.eqb c sep).
  - cbn [length]. now rewrite IH.
  - destruct (split_on sep r) as [ | t ts ]; [ discriminate | exact IH ].
Qed.

Lemma split_on_fields_clean (sep : ascii) (s : string) :
  Forall (fun field => count_char sep field = O) (split_on sep s).
Proof.
  induction s as [ | c r IH ]; cbn [split_on].
  - constructor; [ reflexivity | constructor ].
  - destruct (Ascii.eqb c sep) eqn:Hc.
    + constructor; [ reflexivity | exact IH ].
    + destruct (split_on sep r) as [ | t ts ].
      * constructor; [ cbn; now rewrite Hc | constructor ].
      * inversion IH as [ | ? ? Ht Hts ]; subst.
        constructor; [ cbn; now rewrite Hc | exact Hts ].
Qed.

(** X11. [run_keydb_latency_check] starts the tool once, as
    [keydb-cli --latency], and returns its output cut at every space: one
    field more than the output has spaces, no field with a space in it, and
    the fields joined by single spaces are the output again. *)
Theorem latency_fields_join_back :
  forall (env : Redis.Env) (output : string) (w : World),
    Redis.keydb_cli_output env = Replied output ->
    exists fields,
      Redis.run_keydb_latency_check env w
      = (Val fields,
         mkWorld (stdout w) (trace w ++ [Popen ["keydb-cli"; "--latency"]])%list) /\
      String.concat " " fields = output /\
      length fields = S (count_char " " output) /\
      Forall (fun field => count_char " " field = O) fields.
Proof.
  intros env output w Hout. exists (split_on " " output).
  split; [ | split; [ apply concat_split_on | split;
                      [ apply length_split_on | apply split_on_fields_clean ] ] ].
  unfold Redis.run_keydb_latency_check, ask. cbn [bind ret Monad_M].
  rewrite Hout. reflexivity.
Qed.

Lemma latency_fields_join_back_witness :
  Redis.keydb_cli_output double_space_env = Replied "0  1 0.07 5" /\
  exists fields,
    fst (Redis.run_keydb_latency_check double_space_env initial_world) = Val fields /\
    String.concat " " fields = "0  1 0.07 5".
Proof.
  split; [ reflexivity | ].
  destruct (latency_fields_join_back double_space_env "0  1 0.07 5" initial_world eq_refl)
    as (fields & Hrun & Hjoin & _).
  exists fields. rewrite Hrun. split; [ reflexivity | exact Hjoin ].
Defined.

(** X10. [check_latency] raises IndexError exactly when the output of the
    tool has fewer than two space characters; with two or more it either
    returns a verdict or raises the ValueError of the third field. *)
Theorem index_error_iff_fewer_than_two_spaces :
  forall (env : Redis.Env) (limit : PyFloat.float) (output : string) (w : World),
    Redis.keydb_cli_output env = Replied output ->
    (fst (Redis.check_latency env limit w)
     = Raise (Error IndexError ["list index out of range"])
     <-> (count_char " " output < 2)%nat) /\
    ((2 <= count_char " " output)%nat ->
     (exists healthy latency, fst (Redis.check_latency env limit w) = Val (healthy, latency))
     \/ (exists args, fst (Redis.check_latency env limit w) = Raise (Error ValueError args))).
Proof.
  intros env limit output w Hout. rewrite check_latency_run, Hout. cbn [fst].
  unfold measured_latency, Redis.index.
  pose proof (length_split_on " " output) as Hlen.
  destruct (nth_error (split_on " " output) 2) as [token | ] eqn:Hnth.
  - assert (2 < length (split_on " " output))%nat as Hlong
        by (apply nth_error_Some; congruence).
    cbn [bind Monad_result]. unfold Redis.float_of_str.
    destruct (PyFloat.of_string token) as [latency | ].
    + split; [ split; [ discriminate | lia ] | intros _; left; eauto ].
    + split; [ split; [ discriminate | lia ] | intros _; right; eauto ].
  - apply nth_error_None in Hnth. cbn [bind Monad_result].
    split; [ split; [ lia | reflexivity ] | lia ].
Qed.

Lemma index_error_iff_fewer_than_two_spaces_witness :
  Redis.keydb_cli_output short_env = Replied "0 1" /\
  (count_char " " "0 1" < 2)%nat /\
  fst (Redis.check_latency short_env (PyFloat.literal "20.0") initial_world)
  = Raise (Error IndexError ["list index out of range"]).
Proof.
  split; [ reflexivity | split; [ cbn; lia | ] ].
  apply (proj1 (index_error_iff_fewer_than_two_spaces short_env (PyFloat.literal "20.0")
                  "0 1" initial_world eq_refl)).
  cbn; lia.
Defined.

(* ===================================================================== *)
(** ** The human-readable limit at its edges *)
(* ===================================================================== *)

Lemma string_snoc (s : string) :
  s <> "" -> exists p u, s = p ++ String u "".
Proof.
  induction s as [ | c r IH ]; [ congruence | ]. intros _.
  destruct r as [ | c' r' ].
  - exists "", c. reflexivity.
  - destruct IH as (p & u & Hp); [ discriminate | ].
    exists (String c p), u. cbn. now rewrite Hp.
Qed.

(** X15. The two slices that [get_human_memory_threshold_by_percentage] takes
    of the max-memory string, [s[0:len-1]] and [s[-1:len]], split it: put
    together they are the string again, and the second is its last character
    (the empty string for an empty string). *)
Theorem prefix_and_unit_split_the_string :
  forall s : string,
    slice s 0 (Z.of_nat (String.length s) - 1)
    ++ slice s (-1) (Z.of_nat (String.length s)) = s /\
    String.length (slice s (-1) (Z.of_nat (String.length s)))
    = Nat.min 1 (String.length s) /\
    (forall p u, s = p ++ String u "" ->
       slice s 0 (Z.of_nat (String.length s) - 1) = p /\
       slice s (-1) (Z.of_nat (String.length s)) = String u "").
Proof.
  intros s.
  assert (forall p u, s = p ++ String u "" ->
            slice s 0 (Z.of_nat (String.length s) - 1) = p /\
            slice s (-1) (Z.of_nat (String.length s)) = String u "") as Hsnoc.
  { intros p u ->. split.
    - apply numeric_prefix_snoc.
    - apply unit_suffix_snoc. }
  destruct s as [ | c r ].
  - split; [ reflexivity | split; [ reflexivity | exact Hsnoc ] ].
  - destruct (string_snoc (String c r)) as (p & u & Hp); [ discriminate | ].
    destruct (Hsnoc p u Hp) as [Hprefix Hunit].
    split; [ rewrite Hprefix, Hunit; now rewrite Hp | ].
    split; [ rewrite Hunit; reflexivity | exact Hsnoc ].
Qed.

Lemma numeric_prefix_short (s : string) :
  (String.length s <= 1)%nat -> numeric_prefix s = "".
Proof.
  destruct s as [ | c [ | c' r ] ]; cbn [String.length]; intros H;
    [ reflexivity | reflexivity | lia ].
Qed.

(** X12. A max-memory string of at most one character has no numeric prefix:
    the human-readable limit raises ValueError whatever the fraction, the
    latency tool is not started, nothing is printed and the exit status is
    1. *)
Theorem short_limit_string_raises :
  forall (env : Redis.Env) (a : Redis.Args) (info : Redis.Info) (fmax : PyFloat.float),
    Redis.info_reply env = Replied info ->
    PyFloat.of_int (Redis.maxmemory info) = Some fmax ->
    (String.length (Redis.maxmemory_human info) <= 1)%nat ->
    (forall fraction,
       Redis.get_human_memory_threshold_by_percentage fraction info
       = Raise (Error ValueError ["could not convert string to float: ''"])) /\
    uncaught (run_process (Redis.main env a))
    = Some (Error ValueError ["could not convert string to float: ''"]) /\
    printed (run_process (Redis.main env a)) = "" /\
    exit_code (run_process (Redis.main env a)) = 1 /\
    calls (run_process (Redis.main env a)) = [RedisInfo].
Proof.
  intros env a info fmax Hinfo Hmax Hshort.
  assert (forall fraction,
            Redis.get_human_memory_threshold_by_percentage fraction info
            = Raise (Error ValueError ["could not convert string to float: ''"])) as Hraise.
  { intros fraction. unfold Redis.get_human_memory_threshold_by_percentage.
    fold (numeric_prefix (Redis.maxmemory_human info)).
    rewrite (numeric_prefix_short _ Hshort). reflexivity. }
  split; [ exact Hraise | ].
  rewrite cache_main_run, report_stats_run. cbn zeta. rewrite Hinfo.
  unfold Redis.check_memory_usage, Redis.get_memory_threshold_by_percentage,
    Redis.float_mul_int.
  rewrite Hmax. cbn [bind ret Monad_result]. rewrite Hraise.
  repeat split.
Qed.

Lemma short_limit_string_raises_witness :
  Redis.info_reply empty_limit_env = Replied empty_limit_info /\
  PyFloat.of_int (Redis.maxmemory empty_limit_info) = Some (S754_zero false) /\
  (String.length (Redis.maxmemory_human empty_limit_info) <= 1)%nat /\
  exit_code (run_process (Redis.main empty_limit_env default_args)) = 1.
Proof.
  split; [ reflexivity | split; [ reflexivity | split; [ cbn; lia | ] ] ].
  apply (short_limit_string_raises empty_limit_env default_args empty_limit_info
           (S754_zero false) eq_refl eq_refl).
  cbn; lia.
Defined.

(** X14. When the latency tool cannot be run and the error is no RedisError
    (an OSError for a missing [keydb-cli]), the error leaves [main] after the
    memory check: nothing is printed and the exit status is 1, also when the
    memory check was unhealthy. *)
Theorem tool_error_escapes :
  forall (env : Redis.Env) (a : Redis.Args) (info : Redis.Info)
         (memory_healthy : bool) (allowed : string) (c : error_class) (args : list string),
    Redis.info_reply env = Replied info ->
    Redis.check_memory_usage info (memory_fraction a) = Val (memory_healthy, allowed) ->
    Redis.keydb_cli_output env = Failed c args ->
    issubclass c RedisError = false ->
    uncaught (run_process (Redis.main env a)) = Some (Error c args) /\
    printed (run_process (Redis.main env a)) = "" /\
    exit_code (run_process (Redis.main env a)) = 1 /\
    calls (run_process (Redis.main env a)) = [RedisInfo; Popen ["keydb-cli"; "--latency"]] /\
    issubclass OSError RedisError = false.
Proof.
  intros env a info memory_healthy allowed c args Hinfo Hmem Hout Hclass.
  rewrite cache_main_run, report_stats_run. cbn zeta.
  fold (memory_fraction a) (latency_limit a).
  rewrite Hinfo, Hmem, check_latency_run, Hout.
  unfold cache_outcome. rewrite Hclass. repeat split.
Qed.

Lemma tool_error_escapes_witness :
  Redis.info_reply tool_missing_env = Replied sample_info /\
  Redis.check_memory_usage sample_info (memory_fraction default_args) = Val (true, "3.41GB") /\
  Redis.keydb_cli_output tool_missing_env
  = Failed OSError ["[Errno 2] No such file or directory: keydb-cli"] /\
  issubclass OSError RedisError = false /\
  exit_code (run_process (Redis.main tool_missing_env default_args)) = 1.
Proof.
  repeat (split; [ reflexivity | ]).
  apply (tool_error_escapes tool_missing_env default_args sample_info true "3.41GB" OSError
           ["[Errno 2] No such file or directory: keydb-cli"] eq_refl eq_refl eq_refl eq_refl).
Defined.
